(** * SolanaClient: a shallow embedding of [src/src/index.ts]

    The client builds, signs and conditionally submits value-transfer
    transactions.  The remote ledger (the web3.js [Connection]) and the
    cryptographic / encoding libraries are external collaborators: they
    are taken as records of operations, the ledger as a state-transition
    system over an arbitrary state type.  The methods of the class are
    written in a small state-and-exception monad that mirrors the
    [async]/[try]/[catch] structure of the TypeScript source.

    Console output is not modelled.  JavaScript [number]s are IEEE-754
    binary64 values (primitive floats); the loop counter [attempts] and the
    budget [maxAttempts] are integer-valued and are kept in [Z]. *)

From Stdlib Require Import ZArith QArith Qround List String Ascii Bool Lia.
From Stdlib Require Import Floats Strings.Byte.
Import ListNotations.

Set Warnings "-inexact-float".
Open Scope Z_scope.

(* ================================================================== *)
(** * Results and errors *)

(** The kinds of values the code can throw (the taxonomy of the
    specification, plus the [RangeError] of [BigInt]). *)
Inductive error : Type :=
| InvalidAddress
| InvalidSecretKey
| NetworkUnavailable
| AccountNotFound
| SubmissionRejected
| SigningFailure
| TokenOwnerOffCurve
| RangeError.

Inductive result (A : Type) : Type :=
| Ok (a : A)
| Throw (e : error).
Arguments Ok {A} a.
Arguments Throw {A} e.

(* ================================================================== *)
(** * JavaScript numbers *)

Definition number : Type := float.

(** The exact rational value of a finite binary64 number. *)
Definition SF2Q (x : spec_float) : option Q :=
  match x with
  | S754_zero _ => Some 0%Q
  | S754_finite s m e =>
      let n := cond_Zopp s (Zpos m) in
      Some (if 0 <=? e then inject_Z (n * 2 ^ e)
            else Qmake n (2 ^ Z.to_pos (- e))%positive)
  | S754_infinity _ | S754_nan => None
  end.

Definition number_value (x : number) : option Q := SF2Q (Prim2SF x).

(** The image of [Math.floor]: an integral Number.  Every finite integral
    binary64 value is an integer, so the finite ones are kept in [Z]. *)
Inductive integral : Type :=
| IntNaN
| IntInfinity (negative : bool)
| IntNegZero
| IntFinite (n : Z).

(** [Math.floor(x)]: the greatest integral Number not above [x]; NaN, the
    infinities and the zeros are returned unchanged.  For a finite
    [(-1)^s * m * 2^e] with [e < 0] the mantissa is shifted right, rounding
    towards minus infinity. *)
Definition Math_floor (x : number) : integral :=
  match Prim2SF x with
  | S754_nan => IntNaN
  | S754_infinity s => IntInfinity s
  | S754_zero s => if s then IntNegZero else IntFinite 0
  | S754_finite s m e =>
      let n := cond_Zopp s (Zpos m) in
      IntFinite (if 0 <=? e then n * 2 ^ e else n / 2 ^ (- e))
  end.

(** [BigInt(x)] on an integral Number: a [RangeError] unless [x] is finite. *)
Definition BigInt (x : integral) : result Z :=
  match x with
  | IntFinite n => Ok n
  | IntNegZero => Ok 0
  | IntNaN | IntInfinity _ => Throw RangeError
  end.

(** [const USDC_DECIMALS = 6] and [Math.pow(10, USDC_DECIMALS)], which is
    the exactly representable number 1000000. *)
Definition USDC_DECIMALS : Z := 6.
Definition Math_pow_10 (k : Z) : number :=
  PrimFloat.of_uint63 (Uint63.of_Z (10 ^ k)).

(** [Math.floor(amount * Math.pow(10, USDC_DECIMALS))], line 216. *)
Definition tokenAmount (amount : number) : integral :=
  Math_floor (amount * Math_pow_10 USDC_DECIMALS)%float.

(** The number a decimal literal [m / 10^k] denotes, for [m] and [10^k]
    below [2^53]: both are exact binary64 values and their IEEE quotient is
    the binary64 value nearest to the decimal. *)
Definition decimal (m : Z) (k : Z) : number :=
  (PrimFloat.of_uint63 (Uint63.of_Z m) / Math_pow_10 k)%float.

(* ================================================================== *)
(** * Data model *)

Definition bytes : Type := list byte.

(** [type NetworkType = 'mainnet-beta' | 'testnet' | 'devnet'] *)
Inductive NetworkType : Type := mainnet_beta | testnet | devnet.

(** [const USDC_MINT] *)
Definition USDC_MINT (n : NetworkType) : string :=
  match n with
  | mainnet_beta => "EPjFWdd5AufqSSqeM2qN1xzybapC8G4wEGGkZwyTDt1v"
  | testnet => "4zMMC9srt5Ri5X14GAgXhaHii3GnPAEERYPJgZJDncDU"
  | devnet => "4zMMC9srt5Ri5X14GAgXhaHii3GnPAEERYPJgZJDncDU"
  end.

(** A web3.js [PublicKey]: 32 raw bytes. *)
Record PublicKey : Type := { pk_bytes : bytes }.

(** A web3.js [Keypair]: public key and 64-byte secret key. *)
Record Keypair : Type := {
  kp_publicKey : PublicKey;
  kp_secretKey : bytes
}.

(** [interface WalletInfo] *)
Record WalletInfo : Type := {
  wallet_publicKey : string;
  wallet_secretKey : string;
  wallet_keypair : Keypair
}.

(** The program identifiers passed to the spl-token constructors. *)
Inductive ProgramId : Type := TOKEN_PROGRAM_ID | ASSOCIATED_TOKEN_PROGRAM_ID.

(** The instructions the client creates, as a tagged union of the
    arguments it passes to the library constructors. *)
Inductive instruction : Type :=
| SystemProgram_transfer (fromPubkey toPubkey : PublicKey) (lamports : number)
| createAssociatedTokenAccountInstruction
    (payer associatedToken owner mint : PublicKey)
    (programId associatedTokenProgramId : ProgramId)
| createTransferInstruction
    (source destination owner : PublicKey) (amount : Z)
    (multiSigners : list PublicKey) (programId : ProgramId).

(** A web3.js [Transaction] as the client uses it. *)
Record Transaction : Type := {
  instructions : list instruction;
  recentBlockhash : option string;
  feePayer : option PublicKey;
  tx_signature : option bytes
}.

Definition Transaction_new : Transaction :=
  {| instructions := []; recentBlockhash := None;
     feePayer := None; tx_signature := None |}.

Definition Transaction_add (t : Transaction) (i : instruction) : Transaction :=
  {| instructions := instructions t ++ [i];
     recentBlockhash := recentBlockhash t;
     feePayer := feePayer t;
     tx_signature := tx_signature t |}.

Definition set_recentBlockhash (t : Transaction) (b : string) : Transaction :=
  {| instructions := instructions t;
     recentBlockhash := Some b;
     feePayer := feePayer t;
     tx_signature := tx_signature t |}.

Definition set_feePayer (t : Transaction) (p : PublicKey) : Transaction :=
  {| instructions := instructions t;
     recentBlockhash := recentBlockhash t;
     feePayer := Some p;
     tx_signature := tx_signature t |}.

Definition set_signature (t : Transaction) (s : bytes) : Transaction :=
  {| instructions := instructions t;
     recentBlockhash := recentBlockhash t;
     feePayer := feePayer t;
     tx_signature := Some s |}.

(** [interface TransactionData] *)
Record TransactionData : Type := {
  transaction : bytes;
  signature : string;
  rawTransaction : Transaction
}.

(** What [getAccountInfo] returns for an existing account. *)
Record AccountInfo : Type := { account_lamports : Z; account_data : bytes }.

(* ================================================================== *)
(** * External collaborators *)

(** The encoding and cryptographic primitives of bs58, web3.js and
    spl-token the client relies on. *)
Record Web3 : Type := {
  bs58_encode : bytes -> string;
  bs58_decode : string -> result bytes;
  (** the ed25519 public key of a 32-byte private scalar *)
  ed25519_getPublicKey : bytes -> bytes;
  (** [getAssociatedTokenAddress(mint, owner)] *)
  getAssociatedTokenAddress : PublicKey -> PublicKey -> result PublicKey;
  (** the signature [transaction.sign(keypair)] stores in the transaction *)
  Transaction_sign : Transaction -> Keypair -> result bytes;
  (** [transaction.serialize()] *)
  Transaction_serialize : Transaction -> result bytes;
  (** [Number(s)] on the decimal string of a token amount *)
  Number_of_string : string -> number
}.

(** The web3.js [Connection]: the ledger gateway, a state-transition system
    over a state [W] chosen by the implementation. *)
Record Connection (W : Type) : Type := {
  conn_getLatestBlockhash : W -> result string * W;
  conn_getAccountInfo : PublicKey -> W -> result (option AccountInfo) * W;
  conn_getBalance : PublicKey -> W -> result number * W;
  conn_getTokenAccountBalance : PublicKey -> W -> result string * W;
  conn_sendRawTransaction : bytes -> W -> result string * W
}.
Arguments conn_getLatestBlockhash {W} _ _.
Arguments conn_getAccountInfo {W} _ _ _.
Arguments conn_getBalance {W} _ _ _.
Arguments conn_getTokenAccountBalance {W} _ _ _.
Arguments conn_sendRawTransaction {W} _ _ _.

(* ================================================================== *)
(** * Observable events *)

(** The calls whose number and order the grind loop is specified by, each
    with its outcome. *)
Inductive event : Type :=
| Build (isToken : bool) (r : result TransactionData)
| Logic (sig : string) (accepted : bool)
| Broadcast (tx : bytes) (r : result string)
| Sleep (ms : Z).

Definition is_Build (e : event) : bool :=
  match e with Build _ _ => true | _ => false end.
Definition is_failed_Build (e : event) : bool :=
  match e with Build _ (Throw _) => true | _ => false end.
Definition is_Logic (e : event) : bool :=
  match e with Logic _ _ => true | _ => false end.
Definition is_Broadcast (e : event) : bool :=
  match e with Broadcast _ _ => true | _ => false end.
Definition is_successful_Broadcast (e : event) : bool :=
  match e with Broadcast _ (Ok _) => true | _ => false end.

Definition count (p : event -> bool) (tr : list event) : nat :=
  List.length (filter p tr).

(* ================================================================== *)
(** * The state-and-exception monad of the client's methods *)

(** The machine state: the gateway's state, the observed events, and the
    local variable [txData] of [createUntilLogicMatches], which is assigned
    inside its [try] block and read after the loop. *)
Record state (W : Type) : Type := {
  gateway : W;
  trace : list event;
  var_txData : option TransactionData
}.
Arguments gateway {W} _.
Arguments trace {W} _.
Arguments var_txData {W} _.

Definition M (W A : Type) : Type := state W -> result A * state W.

Definition ret {W A} (a : A) : M W A := fun s => (Ok a, s).

Definition throw {W A} (e : error) : M W A := fun s => (Throw e, s).

Definition bind {W A B} (m : M W A) (k : A -> M W B) : M W B :=
  fun s =>
    match m s with
    | (Ok a, s') => k a s'
    | (Throw e, s') => (Throw e, s')
    end.

(** [try { m } catch (error) { h error }] *)
Definition try_catch {W A} (m : M W A) (h : error -> M W A) : M W A :=
  fun s =>
    match m s with
    | (Ok a, s') => (Ok a, s')
    | (Throw e, s') => h e s'
    end.

(** A synchronous library call that returns or throws. *)
Definition lift {W A} (r : result A) : M W A := fun s => (r, s).

(** An [await]ed call on the connection. *)
Definition gateway_call {W A} (op : W -> result A * W) : M W A :=
  fun s =>
    let (r, g) := op (gateway s) in
    (r, {| gateway := g; trace := trace s; var_txData := var_txData s |}).

Definition emit {W} (e : event) : M W unit :=
  fun s =>
    (Ok tt, {| gateway := gateway s; trace := trace s ++ [e];
               var_txData := var_txData s |}).

(** Run [m] and record its outcome as an event. *)
Definition observe {W A} (mk : result A -> event) (m : M W A) : M W A :=
  fun s =>
    let (r, s') := m s in
    (r, {| gateway := gateway s'; trace := trace s' ++ [mk r];
           var_txData := var_txData s' |}).

(** [await new Promise(resolve => setTimeout(resolve, ms))] *)
Definition setTimeout {W} (ms : Z) : M W unit := emit (Sleep ms).

Definition assign_txData {W} (v : option TransactionData) : M W unit :=
  fun s =>
    (Ok tt, {| gateway := gateway s; trace := trace s; var_txData := v |}).

Definition read_txData {W} : M W (option TransactionData) :=
  fun s => (Ok (var_txData s), s).

Declare Scope monad_scope.
Delimit Scope monad_scope with monad.
Notation "x <- c1 ;; c2" := (bind c1 (fun x => c2))
  (at level 61, c1 at next level, right associativity) : monad_scope.
Notation "c1 ;; c2" := (bind c1 (fun _ => c2))
  (at level 61, right associativity) : monad_scope.
Open Scope monad_scope.

(** What [createUntilLogicMatches] returns; [txData] is [None] when the
    JavaScript value is [undefined], [grind_signature] is [None] for [null]. *)
Record GrindResult : Type := {
  txData : option TransactionData;
  grind_signature : option string
}.

(** How one pass through the body of the [while] loop ends. *)
Inductive flow : Type :=
| Return (r : GrindResult)
| Continue.

(* ================================================================== *)
(** * The methods of [SolanaClient] *)

Section SolanaClient.

Context {W : Type}.
Variable connection : Connection W.
Variable lib : Web3.
Variable network : NetworkType.

(** [new PublicKey(s)]: base-58 decoding and the 32-byte length check. *)
Definition PublicKey_new (s : string) : result PublicKey :=
  match bs58_decode lib s with
  | Ok b => if (List.length b =? 32)%nat then Ok {| pk_bytes := b |}
            else Throw InvalidAddress
  | Throw _ => Throw InvalidAddress
  end.

(** [publicKey.toString()] *)
Definition PublicKey_toString (p : PublicKey) : string :=
  bs58_encode lib (pk_bytes p).

Definition bytes_eqb (a b : bytes) : bool :=
  if list_eq_dec Byte.byte_eq_dec a b then true else false.

(** [Keypair.generate()], on the 32 random bytes it draws: the secret key
    is the private scalar followed by its public key. *)
Definition Keypair_generate (seed : bytes) : Keypair :=
  let pk := ed25519_getPublicKey lib seed in
  {| kp_publicKey := {| pk_bytes := pk |}; kp_secretKey := seed ++ pk |}.

(** [Keypair.fromSecretKey(secretKey)]: the key must have 64 bytes and its
    second half must be the public key of its first half. *)
Definition Keypair_fromSecretKey (secretKey : bytes) : result Keypair :=
  if negb (List.length secretKey =? 64)%nat then Throw InvalidSecretKey
  else
    let publicKey := skipn 32 secretKey in
    let privateScalar := firstn 32 secretKey in
    if bytes_eqb publicKey (ed25519_getPublicKey lib privateScalar)
    then Ok {| kp_publicKey := {| pk_bytes := publicKey |};
               kp_secretKey := secretKey |}
    else Throw InvalidSecretKey.

(** [createWallet()], lines 76-83. *)
Definition createWallet (seed : bytes) : WalletInfo :=
  let wallet := Keypair_generate seed in
  {| wallet_publicKey := PublicKey_toString (kp_publicKey wallet);
     wallet_secretKey := bs58_encode lib (kp_secretKey wallet);
     wallet_keypair := wallet |}.

(** [loadWalletFromSecretKey(secretKey)], lines 90-98. *)
Definition loadWalletFromSecretKey (secretKey : string) : result WalletInfo :=
  match bs58_decode lib secretKey with
  | Throw e => Throw e
  | Ok decodedKey =>
      match Keypair_fromSecretKey decodedKey with
      | Throw e => Throw e
      | Ok wallet =>
          Ok {| wallet_publicKey := PublicKey_toString (kp_publicKey wallet);
                wallet_secretKey := secretKey;
                wallet_keypair := wallet |}
      end
  end.

(** Blockhash, fee payer, signature and serialization: the common tail of
    both builders (lines 125-139 and 262-276). *)
Definition sign_and_serialize (wallet : WalletInfo) (transaction0 : Transaction)
  : M W TransactionData :=
  blockhash <- gateway_call (conn_getLatestBlockhash connection) ;;
  let transaction1 := set_recentBlockhash transaction0 blockhash in
  let transaction2 :=
    set_feePayer transaction1 (kp_publicKey (wallet_keypair wallet)) in
  sig <- lift (Transaction_sign lib transaction2 (wallet_keypair wallet)) ;;
  let transaction3 := set_signature transaction2 sig in
  let signature := bs58_encode lib sig in
  serializedTransaction <- lift (Transaction_serialize lib transaction3) ;;
  ret {| transaction := serializedTransaction;
         signature := signature;
         rawTransaction := transaction3 |}.

(** [createAndSignTransaction], lines 107-144. *)
Definition createAndSignTransaction
  (wallet : WalletInfo) (recipientAddress : string) (lamports : number)
  : M W TransactionData :=
  try_catch
    (recipientPubKey <- lift (PublicKey_new recipientAddress) ;;
     let transaction :=
       Transaction_add Transaction_new
         (SystemProgram_transfer (kp_publicKey (wallet_keypair wallet))
                                 recipientPubKey lamports) in
     sign_and_serialize wallet transaction)
    (fun error => throw error).

(** [checkSignatureAndSubmit(txData)], lines 152-172: the method takes the
    transaction data only. *)
Definition checkSignatureAndSubmit (txData : TransactionData)
  : M W (option string) :=
  try_catch
    (signature <-
       observe (Broadcast (transaction txData))
         (gateway_call (conn_sendRawTransaction connection (transaction txData))) ;;
     ret (Some signature))
    (fun error => throw error).

(** The same method as [src/unnamed/part_000], lines 135-159, has it: there
    it takes the predicate and consults it before submitting. *)
Definition checkSignatureAndSubmit_part_000
  (txData : TransactionData) (logicFunction : string -> bool)
  : M W (option string) :=
  try_catch
    (let shouldSubmit := logicFunction (signature txData) in
     emit (Logic (signature txData) shouldSubmit) ;;
     if shouldSubmit then
       signature <-
         observe (Broadcast (transaction txData))
           (gateway_call (conn_sendRawTransaction connection (transaction txData))) ;;
       ret (Some signature)
     else ret None)
    (fun error => throw error).

(** The call [client.checkSignatureAndSubmit(txData, customLogic)] of
    [src/src/example.ts], line 28, on the method of [src/src/index.ts]: the
    method has one parameter, the surplus argument is dropped. *)
Definition checkSignatureAndSubmit_call
  (txData : TransactionData) (customLogic : string -> bool)
  : M W (option string) :=
  checkSignatureAndSubmit txData.

(** [getBalance], lines 179-188. *)
Definition getBalance (address : string) : M W number :=
  try_catch
    (publicKey <- lift (PublicKey_new address) ;;
     balance <- gateway_call (conn_getBalance connection publicKey) ;;
     ret (balance / 1000000000)%float)
    (fun error => throw error).

(** [getUsdcMint], lines 194-196. *)
Definition getUsdcMint : string := USDC_MINT network.

(** [createAndSignTokenTransaction], lines 205-281. *)
Definition createAndSignTokenTransaction
  (wallet : WalletInfo) (recipientAddress : string) (amount : number)
  : M W TransactionData :=
  try_catch
    (let usdcMintAddress := getUsdcMint in
     mintPublicKey <- lift (PublicKey_new usdcMintAddress) ;;
     recipientPublicKey <- lift (PublicKey_new recipientAddress) ;;
     let tokenAmount := tokenAmount amount in
     senderTokenAccount <-
       lift (getAssociatedTokenAddress lib mintPublicKey
               (kp_publicKey (wallet_keypair wallet))) ;;
     recipientTokenAccount <-
       lift (getAssociatedTokenAddress lib mintPublicKey recipientPublicKey) ;;
     let transaction := Transaction_new in
     recipientAccountInfo <-
       gateway_call (conn_getAccountInfo connection recipientTokenAccount) ;;
     let transaction :=
       match recipientAccountInfo with
       | None =>
           Transaction_add transaction
             (createAssociatedTokenAccountInstruction
                (kp_publicKey (wallet_keypair wallet))
                recipientTokenAccount
                recipientPublicKey
                mintPublicKey
                TOKEN_PROGRAM_ID
                ASSOCIATED_TOKEN_PROGRAM_ID)
       | Some _ => transaction
       end in
     amountBigInt <- lift (BigInt tokenAmount) ;;
     let transaction :=
       Transaction_add transaction
         (createTransferInstruction
            senderTokenAccount
            recipientTokenAccount
            (kp_publicKey (wallet_keypair wallet))
            amountBigInt
            []
            TOKEN_PROGRAM_ID) in
     sign_and_serialize wallet transaction)
    (fun error => throw error).

(** [getTokenBalance], lines 288-310. *)
Definition getTokenBalance (address : string) : M W number :=
  try_catch
    (publicKey <- lift (PublicKey_new address) ;;
     mintPublicKey <- lift (PublicKey_new getUsdcMint) ;;
     tokenAccount <- lift (getAssociatedTokenAddress lib mintPublicKey publicKey) ;;
     try_catch
       (amount <-
          gateway_call (conn_getTokenAccountBalance connection tokenAccount) ;;
        ret (Number_of_string lib amount / Math_pow_10 USDC_DECIMALS)%float)
       (fun error => ret 0%float))
    (fun error => throw error).

(** ** The grind loop, lines 322-381 *)

Section createUntilLogicMatches.

Variable wallet : WalletInfo.
Variable recipientAddress : string.
Variable amount : number.
Variable logicFunction : string -> bool.
Variable isToken : bool.
Variable maxAttempts : Z.

(** The build one iteration performs, lines 341-345. *)
Definition build : M W TransactionData :=
  if isToken
  then createAndSignTokenTransaction wallet recipientAddress amount
  else createAndSignTransaction wallet recipientAddress amount.

(** The body of the [while] loop after [attempts++]: the [try] block of
    lines 340-371 and its [catch], lines 372-376. *)
Definition attempt (attempts : Z) : M W flow :=
  try_catch
    (built <- observe (Build isToken) build ;;
     assign_txData (Some built) ;;
     let shouldSubmit := logicFunction (signature built) in
     emit (Logic (signature built) shouldSubmit) ;;
     if shouldSubmit then
       signature <-
         observe (Broadcast (transaction built))
           (gateway_call
              (conn_sendRawTransaction connection (transaction built))) ;;
       current <- read_txData ;;
       ret (Return {| txData := current; grind_signature := Some signature |})
     else
       setTimeout 10 ;;
       (if attempts mod 10 =? 0 then setTimeout 500 else ret tt) ;;
       ret Continue)
    (fun error => setTimeout 1000 ;; ret Continue).

(** The [while (attempts < maxAttempts)] loop and the final [return] of
    line 380.  [fuel] bounds the number of iterations; [None] is only
    returned when it runs out. *)
Fixpoint grind_loop (fuel : nat) (attempts : Z) : M W (option GrindResult) :=
  match fuel with
  | O => ret None
  | S fuel' =>
      if attempts <? maxAttempts then
        let attempts := attempts + 1 in
        f <- attempt attempts ;;
        match f with
        | Return r => ret (Some r)
        | Continue => grind_loop fuel' attempts
        end
      else
        current <- read_txData ;;
        ret (Some {| txData := current; grind_signature := None |})
  end.

(** [createUntilLogicMatches]: [txData] is declared unassigned, [attempts]
    starts at 0.  The loop runs at most [maxAttempts] iterations, so the
    fuel given here is never exhausted (see [grind_loop_total]). *)
Definition createUntilLogicMatches : M W (option GrindResult) :=
  assign_txData None ;;
  grind_loop (S (Z.to_nat maxAttempts)) 0.

End createUntilLogicMatches.

End SolanaClient.

(* ================================================================== *)
(** * Test doubles for the external collaborators *)

Module TestDouble.

(** ** Base-58 (the Bitcoin alphabet, as in the bs58 package) *)

Definition alphabet : list ascii :=
  list_ascii_of_string
    "123456789ABCDEFGHJKLMNPQRSTUVWXYZabcdefghijkmnopqrstuvwxyz".

Fixpoint N_of_bytes (acc : N) (bs : bytes) : N :=
  match bs with
  | [] => acc
  | b :: rest => N_of_bytes (acc * 256 + Byte.to_N b)%N rest
  end.

Fixpoint digits_of_N (fuel : nat) (base n : N) (acc : list N) : list N :=
  match fuel with
  | O => acc
  | S fuel' =>
      if (n =? 0)%N then acc
      else digits_of_N fuel' base (n / base)%N ((n mod base)%N :: acc)
  end.

Fixpoint leading_zero_bytes (bs : bytes) : nat :=
  match bs with
  | x00 :: rest => S (leading_zero_bytes rest)
  | _ => O
  end.

Fixpoint leading_ones (cs : list ascii) : nat :=
  match cs with
  | c :: rest => if Ascii.eqb c "1" then S (leading_ones rest) else O
  | [] => O
  end.

Definition base58_encode (bs : bytes) : string :=
  let digits := digits_of_N (2 * List.length bs) 58 (N_of_bytes 0 bs) [] in
  string_of_list_ascii
    (repeat "1"%char (leading_zero_bytes bs)
     ++ map (fun d => nth (N.to_nat d) alphabet "1"%char) digits).

Fixpoint index_of (c : ascii) (l : list ascii) (i : N) : option N :=
  match l with
  | [] => None
  | x :: rest => if Ascii.eqb c x then Some i else index_of c rest (i + 1)%N
  end.

Fixpoint N_of_base58 (acc : N) (cs : list ascii) : option N :=
  match cs with
  | [] => Some acc
  | c :: rest =>
      match index_of c alphabet 0 with
      | Some d => N_of_base58 (acc * 58 + d)%N rest
      | None => None
      end
  end.

Definition byte_of_N (n : N) : byte :=
  match Byte.of_N n with Some b => b | None => x00 end.

Definition base58_decode (s : string) : result bytes :=
  let cs := list_ascii_of_string s in
  match N_of_base58 0 cs with
  | None => Throw InvalidSecretKey
  | Some n =>
      Ok (repeat x00 (leading_ones cs)
          ++ map byte_of_N (digits_of_N (List.length cs) 256 n []))
  end.

(** ** The other primitives *)

(** A stand-in for ed25519 key derivation: deterministic, 32 bytes out of
    32 bytes in. *)
Definition derive_public_key (privateScalar : bytes) : bytes :=
  rev privateScalar.

(** A stand-in for the associated-token-address derivation: a function of
    the owner, never failing. *)
Definition derive_token_account (mint owner : PublicKey)
  : result PublicKey :=
  Ok {| pk_bytes := rev (pk_bytes owner) |}.

Definition bytes_of_string (s : string) : bytes :=
  map byte_of_ascii (list_ascii_of_string s).

(** A stand-in for signing: the signature is a function of the blockhash,
    and signing fails without one. *)
Definition sign_stub (t : Transaction) (k : Keypair) : result bytes :=
  match recentBlockhash t with
  | Some b => Ok (bytes_of_string b)
  | None => Throw SigningFailure
  end.

Definition serialize_stub (t : Transaction) : result bytes :=
  match tx_signature t with
  | Some s => Ok (x01 :: s)
  | None => Throw SigningFailure
  end.

Fixpoint Z_of_digits (acc : Z) (cs : list ascii) : Z :=
  match cs with
  | [] => acc
  | c :: rest => Z_of_digits (acc * 10 + (Z.of_nat (nat_of_ascii c) - 48)) rest
  end.

Definition parse_amount (s : string) : number :=
  PrimFloat.of_uint63 (Uint63.of_Z (Z_of_digits 0 (list_ascii_of_string s))).

Definition lib : Web3 :=
  Build_Web3 base58_encode base58_decode derive_public_key
    derive_token_account sign_stub serialize_stub
    parse_amount.

(** ** A scripted ledger *)

(** The gateway's state: the answers it will give to [ledger_getLatestBlockhash]
    and to [ledger_sendRawTransaction], in order (with none left, the call fails),
    the accounts that exist, and the balances it reports. *)
Record Ledger : Type := {
  blockhashes : list (result string);
  accounts : list PublicKey;
  native_balance : result number;
  token_balance : result string;
  broadcasts : list (result string)
}.

Definition ledger_getLatestBlockhash (l : Ledger) : result string * Ledger :=
  match blockhashes l with
  | [] => (Throw NetworkUnavailable, l)
  | r :: rest =>
      (r, {| blockhashes := rest; accounts := accounts l;
             native_balance := native_balance l;
             token_balance := token_balance l;
             broadcasts := broadcasts l |})
  end.

Definition PublicKey_eqb (a b : PublicKey) : bool :=
  if list_eq_dec Byte.byte_eq_dec (pk_bytes a) (pk_bytes b) then true else false.

Definition ledger_getAccountInfo (a : PublicKey) (l : Ledger)
  : result (option AccountInfo) * Ledger :=
  (Ok (if existsb (PublicKey_eqb a) (accounts l)
       then Some {| account_lamports := 2039280; account_data := [] |}
       else None), l).

Definition ledger_getBalance (a : PublicKey) (l : Ledger) : result number * Ledger :=
  (native_balance l, l).

Definition ledger_getTokenAccountBalance (a : PublicKey) (l : Ledger)
  : result string * Ledger :=
  (token_balance l, l).

Definition ledger_sendRawTransaction (tx : bytes) (l : Ledger)
  : result string * Ledger :=
  match broadcasts l with
  | [] => (Throw SubmissionRejected, l)
  | r :: rest =>
      (r, {| blockhashes := blockhashes l; accounts := accounts l;
             native_balance := native_balance l;
             token_balance := token_balance l;
             broadcasts := rest |})
  end.

Definition connection : Connection Ledger :=
  {| conn_getLatestBlockhash := ledger_getLatestBlockhash;
     conn_getAccountInfo := ledger_getAccountInfo;
     conn_getBalance := ledger_getBalance;
     conn_getTokenAccountBalance := ledger_getTokenAccountBalance;
     conn_sendRawTransaction := ledger_sendRawTransaction |}.

Definition initial (l : Ledger) : state Ledger :=
  {| gateway := l; trace := []; var_txData := None |}.

(** ** Concrete inputs *)

Definition seed : bytes :=
  [x01; x02; x03; x04; x05; x06; x07; x08; x09; x0a; x0b; x0c; x0d; x0e; x0f; x10;
   x11; x12; x13; x14; x15; x16; x17; x18; x19; x1a; x1b; x1c; x1d; x1e; x1f; x20].

Definition sender : WalletInfo := createWallet lib seed.

(** The recipient of [src/src/example.ts], and a string that is no
    base-58 text. *)
Definition recipient : string := "83astBRguLMdt2h5U1Tpdq5tjFoJ6noeGwaY3mDLVcri".
Definition malformed : string := "not a base-58 address".

(** A ledger without token accounts that answers [ledger_getLatestBlockhash] with
    [hashes] and [ledger_sendRawTransaction] with [sends]. *)
Definition ledger (hashes sends : list (result string)) : Ledger :=
  {| blockhashes := hashes;
     accounts := [];
     native_balance := Ok 1000000000%float;
     token_balance := Throw AccountNotFound;
     broadcasts := sends |}.

(** The same with the recipient's holding account present. *)
Definition ledger_with_recipient_account
  (hashes sends : list (result string)) : Ledger :=
  {| blockhashes := hashes;
     accounts :=
       match PublicKey_new lib recipient with
       | Ok owner => [{| pk_bytes := rev (pk_bytes owner) |}]
       | Throw _ => []
       end;
     native_balance := Ok 1000000000%float;
     token_balance := Ok "1500000"%string;
     broadcasts := sends |}.

(** A ledger whose balance fetch fails with [e]. *)
Definition ledger_failing_balance (e : error) : Ledger :=
  {| blockhashes := [];
     accounts := [];
     native_balance := Throw e;
     token_balance := Throw e;
     broadcasts := [] |}.

Definition three_hashes : list (result string) :=
  [Ok "h1"%string; Ok "h2"%string; Ok "h3"%string].

Definition accept_all (sig : string) : bool := true.
Definition reject_all (sig : string) : bool := false.

Definition unwrap {A} (default : A) (r : result A) : A :=
  match r with
  | Ok a => a
  | Throw _ => default
  end.

(** The keys the token transfer of the example derives on devnet. *)
Definition recipient_key : PublicKey :=
  Eval vm_compute in unwrap {| pk_bytes := [] |} (PublicKey_new lib recipient).
Definition usdc_mint_key : PublicKey :=
  Eval vm_compute in
    unwrap {| pk_bytes := [] |} (PublicKey_new lib (getUsdcMint devnet)).
Definition recipient_account : PublicKey :=
  Eval vm_compute in
    unwrap {| pk_bytes := [] |}
      (derive_token_account usdc_mint_key recipient_key).

(** The native transfer of the example on a ledger that answers one
    blockhash request with ["h1"]. *)
Definition example_txData : TransactionData :=
  Eval vm_compute in
    unwrap {| transaction := []; signature := EmptyString; rawTransaction := Transaction_new |}
      (fst (createAndSignTransaction connection lib sender recipient 100000%float
              (initial (ledger [Ok "h1"%string] [])))).

End TestDouble.


(* ================================================================== *)
(** * The shape of a run of the grind loop *)

(** The events a state gained between two points of an execution. *)
Definition new_events {W} (before after : state W) : list event :=
  skipn (List.length (trace before)) (trace after).

Section Shapes.

Variable logicFunction : string -> bool.
Variable isToken : bool.
Variable maxAttempts : Z.

(** The events of one pass through the loop body that does not return,
    for the counter value [attempts] the pass runs with, and the value of
    the variable [txData] before and after it. *)
Inductive iteration (attempts : Z)
  : option TransactionData -> option TransactionData -> list event -> Prop :=
| iteration_build_failed (current : option TransactionData) (e : error) :
    iteration attempts current current
      [Build isToken (Throw e); Sleep 1000]
| iteration_rejected (current : option TransactionData) (built : TransactionData) :
    logicFunction (signature built) = false ->
    iteration attempts current (Some built)
      ([Build isToken (Ok built); Logic (signature built) false; Sleep 10]
       ++ (if attempts mod 10 =? 0 then [Sleep 500] else []))
| iteration_broadcast_failed (current : option TransactionData)
    (built : TransactionData) (e : error) :
    logicFunction (signature built) = true ->
    iteration attempts current (Some built)
      [Build isToken (Ok built); Logic (signature built) true;
       Broadcast (transaction built) (Throw e); Sleep 1000].

(** The events and the result of the loop started with the counter at
    [attempts] and the variable [txData] holding [current]. *)
Inductive run
  : Z -> option TransactionData -> list event -> GrindResult -> Prop :=
| run_exhausted (attempts : Z) (current : option TransactionData) :
    maxAttempts <= attempts ->
    run attempts current []
      {| txData := current; grind_signature := None |}
| run_accepted (attempts : Z) (current : option TransactionData)
    (built : TransactionData) (sig : string) :
    attempts < maxAttempts ->
    logicFunction (signature built) = true ->
    run attempts current
      [Build isToken (Ok built); Logic (signature built) true;
       Broadcast (transaction built) (Ok sig)]
      {| txData := Some built; grind_signature := Some sig |}
| run_continue (attempts : Z) (current next : option TransactionData)
    (evs rest : list event) (r : GrindResult) :
    attempts < maxAttempts ->
    iteration (attempts + 1) current next evs ->
    run (attempts + 1) next rest r ->
    run attempts current (evs ++ rest) r.

End Shapes.

(* ================================================================== *)
(** * The client object and the drivers *)

(** ** The fields of [SolanaClient], lines 50-70 *)

(** The connection of a client is determined by the endpoint it was
    created with, [clusterApiUrl(network)]; the client is the pair of its
    two private fields. *)
Record Client : Type := {
  client_network : NetworkType;
  client_endpoint : string
}.

Section ClientObject.

(** web3.js's [clusterApiUrl]. *)
Variable clusterApiUrl : NetworkType -> string.

(** [constructor(network = 'devnet')], lines 57-60; [None] is the omitted
    argument. *)
Definition SolanaClient_new (network : option NetworkType) : Client :=
  let network := match network with Some n => n | None => devnet end in
  {| client_network := network; client_endpoint := clusterApiUrl network |}.

(** [setNetwork(network)], lines 66-70. *)
Definition setNetwork (network : NetworkType) (this : Client) : Client :=
  {| client_network := network; client_endpoint := clusterApiUrl network |}.

(** [getUsdcMint()] on the client object. *)
Definition Client_getUsdcMint (this : Client) : string :=
  USDC_MINT (client_network this).

(** The networks a client has been given: the constructor's, then one per
    [setNetwork] call. *)
Definition after_calls (first : option NetworkType) (calls : list NetworkType)
  : Client :=
  fold_left (fun this n => setNetwork n this) calls (SolanaClient_new first).

End ClientObject.

(** ** The predicate of [src/unnamed/part_000], lines 194-222 *)

(** Strings are ASCII text here, as base-58 signatures are.
    [s.charAt(i)] is the one-character string at [i], or the empty string
    when [i] is out of range. *)
Definition charAt (s : string) (i : Z) : string :=
  if i <? 0 then EmptyString
  else match String.get (Z.to_nat i) s with
       | Some c => String c EmptyString
       | None => EmptyString
       end.

Definition toLowerCase_ascii (c : ascii) : ascii :=
  let n := nat_of_ascii c in
  if ((65 <=? n) && (n <=? 90))%nat then ascii_of_nat (n + 32) else c.

(** [s.toLowerCase()] *)
Fixpoint toLowerCase (s : string) : string :=
  match s with
  | EmptyString => EmptyString
  | String c rest => String (toLowerCase_ascii c) (toLowerCase rest)
  end.

(** [array.includes(x)] on an array of strings. *)
Definition includes (array : list string) (x : string) : bool :=
  existsb (String.eqb x) array.

Definition evenNumbers : list string :=
  ["0"; "2"; "4"; "6"; "8"]%string.
Definition evenLetters : list string :=
  ["b"; "d"; "f"; "h"; "j"; "l"; "n"; "p"; "r"; "t"; "v"; "x"; "z"]%string.
Definition oddNumbers : list string :=
  ["1"; "3"; "5"; "7"; "9"]%string.
Definition oddLetters : list string :=
  ["a"; "c"; "e"; "g"; "i"; "k"; "m"; "o"; "q"; "s"; "u"; "w"; "y"]%string.

(** The locals [isEvenWinner] and [isOddWinner] of [customLogic], lines
    198-210. *)
Definition customLogic_winners (signature : string) : bool * bool :=
  let firstChar :=
    toLowerCase (charAt signature (Z.of_nat (String.length signature) - 1)) in
  let isEvenWinner :=
    includes evenNumbers firstChar || includes evenLetters firstChar in
  let isOddWinner :=
    includes oddNumbers firstChar || includes oddLetters firstChar in
  (isEvenWinner, isOddWinner).

(** [customLogic], lines 194-222: [isWinner = isOddWinner]. *)
Definition customLogic (signature : string) : bool :=
  let (isEvenWinner, isOddWinner) := customLogic_winners signature in
  let isWinner := isOddWinner in
  isWinner.

(** [customLogic] of [src/src/example.ts], lines 14-17. *)
Definition customLogic_always (signature : string) : bool := true.

(** ** The two [example] functions *)

Section Drivers.

Context {W : Type}.
Variable connection : Connection W.
Variable lib : Web3.
Variable clusterApiUrl : NetworkType -> string.

(** [example()] of [src/unnamed/part_000], lines 181-263, on the 32 random
    bytes [createWallet] draws.  The client is created for mainnet-beta. *)
Definition example_part_000 (seed : bytes) : M W unit :=
  let client := SolanaClient_new clusterApiUrl (Some mainnet_beta) in
  let wallet := createWallet lib seed in
  try_catch
    (let recipientAddress :=
       "Dghnvn5Mjpgi4JyGLebQ4fubVytvjTy59xkrYCLHaFTm"%string in
     usdcTxData <-
       createAndSignTokenTransaction connection lib (client_network client)
         wallet recipientAddress 10%float ;;
     let accepted := customLogic (signature usdcTxData) in
     emit (Logic (signature usdcTxData) accepted) ;;
     if accepted then
       usdcTxSignature <- checkSignatureAndSubmit connection usdcTxData ;;
       try_catch
         (balance <-
            getTokenBalance connection lib (client_network client)
              (wallet_publicKey wallet) ;;
          ret tt)
         (fun error => ret tt)
     else ret tt)
    (fun error => ret tt).

(** [example()] of [src/src/example.ts], lines 4-45, run on the client of
    [src/src/index.ts]; it returns the client as it is left.  The wallet is
    loaded before the [try] block. *)
Definition example_src : M W Client :=
  let client := SolanaClient_new clusterApiUrl (Some devnet) in
  wallet <-
    lift (loadWalletFromSecretKey lib
            "444k7wD5rjhg3o3rAcBddWsC3Ng2CxZJwYcV8FyGqsawJEx13WdS6HzLwTqVLR5dLszKNzBq776M7azpHjc22wsa") ;;
  try_catch
    (let recipientAddress :=
       "83astBRguLMdt2h5U1Tpdq5tjFoJ6noeGwaY3mDLVcri"%string in
     txData <-
       createAndSignTransaction connection lib wallet recipientAddress
         100000%float ;;
     txSignature <-
       checkSignatureAndSubmit_call connection txData customLogic_always ;;
     ret (setNetwork clusterApiUrl testnet client))
    (fun error => ret client).

End Drivers.

(** ** Auxiliary notions *)

(** A transaction without its signature: what [transaction.sign] signs in
    the builders. *)
Definition unsigned (t : Transaction) : Transaction :=
  {| instructions := instructions t;
     recentBlockhash := recentBlockhash t;
     feePayer := feePayer t;
     tx_signature := None |}.

(** The ASCII letters and digits. *)
Definition is_alphanumeric (c : ascii) : bool :=
  let n := nat_of_ascii c in
  ((48 <=? n) && (n <=? 57) || (65 <=? n) && (n <=? 90)
   || (97 <=? n) && (n <=? 122))%nat.

(** ** Measures on event lists *)

(** The milliseconds an event list spends in [setTimeout]. *)
Fixpoint total_sleep (evs : list event) : Z :=
  match evs with
  | [] => 0
  | Sleep ms :: rest => ms + total_sleep rest
  | _ :: rest => total_sleep rest
  end.

(** The transaction data of the last build that succeeded, [current] when
    none did. *)
Fixpoint last_built (current : option TransactionData) (evs : list event)
  : option TransactionData :=
  match evs with
  | [] => current
  | Build _ (Ok built) :: rest => last_built (Some built) rest
  | _ :: rest => last_built current rest
  end.

Definition is_long_Sleep (e : event) : bool :=
  match e with Sleep ms => ms =? 500 | _ => false end.

(** ** Further inputs for the test doubles *)

Module Scenarios.

Definition ten_hashes : list (result string) :=
  map (fun h => Ok h)
    ["h01"; "h02"; "h03"; "h04"; "h05"; "h06"; "h07"; "h08"; "h09"; "h10"]%string.

(** web3.js's [clusterApiUrl] (with TLS). *)
Definition clusterApiUrl (n : NetworkType) : string :=
  match n with
  | mainnet_beta => "https://api.mainnet-beta.solana.com"
  | testnet => "https://api.testnet.solana.com"
  | devnet => "https://api.devnet.solana.com"
  end.

End Scenarios.

(* ================================================================== *)
(** * Properties *)

Section Properties.

Context {W : Type}.
Variable connection : Connection W.
Variable lib : Web3.
Variable network : NetworkType.

(** ** The builders only touch the gateway *)

Lemma sign_and_serialize_frame (wallet : WalletInfo) (t : Transaction) (s : state W) :
  trace (snd (sign_and_serialize connection lib wallet t s)) = trace s /\
  var_txData (snd (sign_and_serialize connection lib wallet t s)) = var_txData s.
Proof.
  unfold sign_and_serialize, bind, gateway_call, lift, ret.
  destruct (conn_getLatestBlockhash connection (gateway s)) as [[b|e] g];
    simpl; auto.
  destruct (Transaction_sign lib _ _) as [sig|e]; simpl; auto.
  destruct (Transaction_serialize lib _) as [ser|e]; simpl; auto.
Qed.

Lemma createAndSignTransaction_frame wallet recipientAddress lamports (s : state W) :
  trace (snd (createAndSignTransaction connection lib wallet recipientAddress lamports s))
  = trace s /\
  var_txData (snd (createAndSignTransaction connection lib wallet recipientAddress lamports s))
  = var_txData s.
Proof.
  unfold createAndSignTransaction, try_catch, bind, lift, throw.
  destruct (PublicKey_new lib recipientAddress) as [pk|e]; simpl; auto.
  match goal with
  | |- context [sign_and_serialize ?c ?l ?w ?t ?s] =>
      pose proof (sign_and_serialize_frame w t s) as F;
      destruct (sign_and_serialize c l w t s) as [[td|e] s']
  end; simpl in *; auto.
Qed.

Lemma createAndSignTokenTransaction_frame wallet recipientAddress amount (s : state W) :
  trace (snd (createAndSignTokenTransaction connection lib network wallet
                recipientAddress amount s)) = trace s /\
  var_txData (snd (createAndSignTokenTransaction connection lib network wallet
                     recipientAddress amount s)) = var_txData s.
Proof.
  unfold createAndSignTokenTransaction, try_catch, bind, lift, throw, gateway_call.
  destruct (PublicKey_new lib (getUsdcMint network)) as [mint|e]; simpl; auto.
  destruct (PublicKey_new lib recipientAddress) as [rpk|e]; simpl; auto.
  destruct (getAssociatedTokenAddress lib mint _) as [sata|e]; simpl; auto.
  destruct (getAssociatedTokenAddress lib mint rpk) as [rata|e]; simpl; auto.
  destruct (conn_getAccountInfo connection rata (gateway s)) as [[info|e] g];
    simpl; auto.
  destruct (BigInt (tokenAmount amount)) as [n|e]; simpl; auto.
  match goal with
  | |- context [sign_and_serialize ?c ?l ?w ?t ?s0] =>
      pose proof (sign_and_serialize_frame w t s0) as F;
      destruct (sign_and_serialize c l w t s0) as [[td|e] s']
  end; simpl in *; auto.
Qed.

Section Grind.

Variable wallet : WalletInfo.
Variable recipientAddress : string.
Variable amount : number.
Variable logicFunction : string -> bool.
Variable isToken : bool.

Let build_ := build connection lib network wallet recipientAddress amount isToken.
Let attempt_ :=
  attempt connection lib network wallet recipientAddress amount logicFunction isToken.

Lemma build_frame (s : state W) :
  trace (snd (build_ s)) = trace s /\ var_txData (snd (build_ s)) = var_txData s.
Proof.
  unfold build_, build. destruct isToken.
  - apply createAndSignTokenTransaction_frame.
  - apply createAndSignTransaction_frame.
Qed.

(** One pass through the loop body, case by case. *)
Lemma attempt_spec (attempts : Z) (s : state W) :
  attempt_ attempts s =
  match build_ s with
  | (Throw e, s1) =>
      (Ok Continue,
       {| gateway := gateway s1;
          trace := trace s ++ [Build isToken (Throw e); Sleep 1000];
          var_txData := var_txData s |})
  | (Ok built, s1) =>
      if logicFunction (signature built) then
        match conn_sendRawTransaction connection (transaction built) (gateway s1) with
        | (Ok sig, g2) =>
            (Ok (Return {| txData := Some built; grind_signature := Some sig |}),
             {| gateway := g2;
                trace := trace s ++ [Build isToken (Ok built);
                                     Logic (signature built) true;
                                     Broadcast (transaction built) (Ok sig)];
                var_txData := Some built |})
        | (Throw e, g2) =>
            (Ok Continue,
             {| gateway := g2;
                trace := trace s ++ [Build isToken (Ok built);
                                     Logic (signature built) true;
                                     Broadcast (transaction built) (Throw e);
                                     Sleep 1000];
                var_txData := Some built |})
        end
      else
        (Ok Continue,
         {| gateway := gateway s1;
            trace := trace s ++ ([Build isToken (Ok built);
                                  Logic (signature built) false; Sleep 10]
                                 ++ (if attempts mod 10 =? 0 then [Sleep 500] else []));
            var_txData := Some built |})
  end.
Proof.
  unfold attempt_, attempt.
  fold build_.
  unfold try_catch, bind, observe, assign_txData, emit, setTimeout, emit,
    read_txData, gateway_call, ret.
  pose proof (build_frame s) as [Ft Fv].
  destruct (build_ s) as [[built|e] s1]; simpl in *.
  - rewrite Ft.
    destruct (logicFunction (signature built)); simpl.
    + destruct (conn_sendRawTransaction connection (transaction built) (gateway s1))
        as [[sig|e] g2]; simpl;
        repeat rewrite <- app_assoc; reflexivity.
    + destruct (attempts mod 10 =? 0); simpl;
        repeat rewrite <- app_assoc; reflexivity.
  - rewrite Ft, Fv. repeat rewrite <- app_assoc. reflexivity.
Qed.

Variable maxAttempts : Z.

Let grind_loop_ :=
  grind_loop connection lib network wallet recipientAddress amount logicFunction
    isToken maxAttempts.
Let grind :=
  createUntilLogicMatches connection lib network wallet recipientAddress amount
    logicFunction isToken maxAttempts.

(** With fuel for the iterations that remain, the loop returns a result,
    and the events it added have the shape of a run. *)
Lemma grind_loop_run (fuel : nat) :
  forall (attempts : Z) (s : state W),
    (Z.to_nat (maxAttempts - attempts) < fuel)%nat ->
    exists (r : GrindResult) (s' : state W) (evs : list event),
      grind_loop_ fuel attempts s = (Ok (Some r), s') /\
      trace s' = trace s ++ evs /\
      run logicFunction isToken maxAttempts attempts (var_txData s) evs r.
Proof.
  induction fuel as [|fuel IH]; intros attempts s Hfuel; [lia|].
  unfold grind_loop_. simpl. fold grind_loop_.
  destruct (attempts <? maxAttempts) eqn:Hlt.
  - apply Z.ltb_lt in Hlt.
    unfold bind. fold attempt_. rewrite attempt_spec.
    assert (Hfuel' : (Z.to_nat (maxAttempts - (attempts + 1)) < fuel)%nat) by lia.
    destruct (build_ s) as [[built|e] s1].
    + destruct (logicFunction (signature built)) eqn:Hacc.
      * destruct (conn_sendRawTransaction connection (transaction built) (gateway s1))
          as [[sig|e] g2].
        -- eexists _, _, _. split; [reflexivity|]. split; [reflexivity|].
           now apply run_accepted.
        -- match goal with
           | |- context [grind_loop_ fuel (attempts + 1) ?s2] =>
               destruct (IH (attempts + 1) s2 Hfuel') as (r & s' & evs & E & T & R)
           end.
           eexists r, s', _. split; [exact E|]. split.
           ++ rewrite T. simpl. rewrite <- app_assoc. reflexivity.
           ++ eapply run_continue; [exact Hlt| |exact R].
              now apply iteration_broadcast_failed.
      * match goal with
        | |- context [grind_loop_ fuel (attempts + 1) ?s2] =>
            destruct (IH (attempts + 1) s2 Hfuel') as (r & s' & evs & E & T & R)
        end.
        eexists r, s', _. split; [exact E|]. split.
        -- rewrite T. simpl trace. rewrite <- app_assoc. reflexivity.
        -- eapply run_continue; [exact Hlt| |exact R].
           now apply iteration_rejected.
    + match goal with
      | |- context [grind_loop_ fuel (attempts + 1) ?s2] =>
          destruct (IH (attempts + 1) s2 Hfuel') as (r & s' & evs & E & T & R)
      end.
      eexists r, s', _. split; [exact E|]. split.
      * rewrite T. simpl trace. rewrite <- app_assoc. reflexivity.
      * eapply run_continue; [exact Hlt| |exact R].
        apply iteration_build_failed.
  - apply Z.ltb_ge in Hlt.
    unfold bind, read_txData, ret.
    eexists _, s, []. split; [reflexivity|]. split.
    + now rewrite app_nil_r.
    + now apply run_exhausted.
Qed.

(** The fuel [createUntilLogicMatches] passes is sufficient: the method
    always returns a result, never throws, and its events are a run from
    counter 0 with [txData] unassigned. *)
Lemma grind_loop_total (s : state W) :
  exists (r : GrindResult) (evs : list event),
    fst (grind s) = Ok (Some r) /\
    new_events s (snd (grind s)) = evs /\
    run logicFunction isToken maxAttempts 0 None evs r.
Proof.
  unfold grind, createUntilLogicMatches, bind, assign_txData.
  fold grind_loop_.
  match goal with
  | |- context [grind_loop_ ?f 0 ?s0] =>
      destruct (grind_loop_run f 0 s0) as (r & s' & evs & E & T & R); [lia|]
  end.
  rewrite E. simpl in *. exists r, evs. split; [reflexivity|]. split; [|exact R].
  unfold new_events. rewrite T. rewrite skipn_app, skipn_all, Nat.sub_diag.
  reflexivity.
Qed.

End Grind.

End Properties.

(* ================================================================== *)
(** * Counting and locating events in a run *)

Lemma count_app (p : event -> bool) (a b : list event) :
  count p (a ++ b) = (count p a + count p b)%nat.
Proof. unfold count. now rewrite filter_app, length_app. Qed.

Lemma split_at {A} (l1 l2 pre post : list A) (x : A) :
  l1 ++ l2 = pre ++ x :: post ->
  (exists m, l1 = pre ++ x :: m /\ post = m ++ l2) \/
  (exists m, pre = l1 ++ m /\ l2 = m ++ x :: post).
Proof.
  revert pre. induction l1 as [|a l1 IH]; intros pre H; simpl in *.
  - right. exists pre. auto.
  - destruct pre as [|p pre]; simpl in *.
    + injection H as -> H. left. exists l1. auto.
    + injection H as -> H. destruct (IH pre H) as [(m & -> & ->)|(m & -> & ->)].
      * left. exists m. auto.
      * right. exists m. auto.
Qed.

Ltac enum E pre :=
  destruct pre as [|? pre]; simpl in E;
  [ first [discriminate E | (injection E; intros; subst; try congruence) ]
  | first [discriminate E | (injection E as ? E; subst; enum E pre)] ].

Section RunShapes.
Variable logicFunction : string -> bool.
Variable isToken : bool.
Variable maxAttempts : Z.
Abbreviation iteration := (iteration logicFunction isToken).
Abbreviation run := (run logicFunction isToken maxAttempts).

Lemma iteration_counts att cur next evs :
  iteration att cur next evs ->
  count is_Build evs = 1%nat /\
  (count is_Logic evs + count is_failed_Build evs = 1)%nat /\
  (count is_Broadcast evs <= 1)%nat /\
  count is_successful_Broadcast evs = 0%nat.
Proof.
  intros H. destruct H; try destruct (att mod 10 =? 0); cbn; auto.
Qed.

Lemma run_counts att cur evs r :
  run att cur evs r ->
  (count is_Build evs <= Z.to_nat (maxAttempts - att))%nat /\
  (count is_Logic evs + count is_failed_Build evs = count is_Build evs)%nat /\
  (count is_Broadcast evs <= count is_Build evs)%nat /\
  (count is_successful_Broadcast evs <= 1)%nat.
Proof.
  induction 1 as [att cur Hge | att cur td sig Hlt Hacc
                 | att cur next evs rest r Hlt Hit Hrun IH].
  - cbn. lia.
  - cbn. lia.
  - rewrite !count_app.
    destruct (iteration_counts _ _ _ _ Hit) as (B & L & C & S).
    lia.
Qed.

Lemma iteration_rejecting att cur next evs :
  (forall sig, logicFunction sig = false) ->
  iteration att cur next evs -> count is_Broadcast evs = 0%nat.
Proof.
  intros Hrej H. destruct H as [cur e | cur td Hf | cur td e Ht].
  - reflexivity.
  - destruct (att mod 10 =? 0); reflexivity.
  - rewrite Hrej in Ht. discriminate.
Qed.

Lemma run_rejecting att cur evs r :
  (forall sig, logicFunction sig = false) ->
  run att cur evs r ->
  count is_Build evs = Z.to_nat (maxAttempts - att) /\
  count is_Broadcast evs = 0%nat /\
  grind_signature r = None.
Proof.
  intros Hrej.
  induction 1 as [att cur Hge | att cur td sig Hlt Hacc
                 | att cur next evs rest r Hlt Hit Hrun IH].
  - cbn. repeat split. lia.
  - rewrite Hrej in Hacc. discriminate.
  - rewrite !count_app.
    destruct (iteration_counts _ _ _ _ Hit) as (B & _).
    pose proof (iteration_rejecting _ _ _ _ Hrej Hit).
    destruct IH as (IB & IC & IS). repeat split; try lia. exact IS.
Qed.

Lemma iteration_broadcast_guarded att cur next evs pre tx r0 post :
  iteration att cur next evs ->
  evs = pre ++ Broadcast tx r0 :: post ->
  exists built e,
    pre = [Build isToken (Ok built); Logic (signature built) true] /\
    tx = transaction built /\ r0 = Throw e /\ post = [Sleep 1000].
Proof.
  intros H E. symmetry in E.
  destruct H as [cur e | cur td Hf | cur td e Ht].
  - enum E pre.
  - destruct (att mod 10 =? 0); simpl in E; enum E pre.
  - enum E pre. exists td, e. auto.
Qed.

Lemma iteration_failed_build_sleeps att cur next evs pre e post :
  iteration att cur next evs ->
  evs = pre ++ Build isToken (Throw e) :: post ->
  pre = [] /\ post = [Sleep 1000].
Proof.
  intros H E. symmetry in E.
  destruct H as [cur e' | cur td Hf | cur td e' Ht].
  - enum E pre. auto.
  - destruct (att mod 10 =? 0); simpl in E; enum E pre.
  - enum E pre.
Qed.

Lemma run_broadcast_guarded att cur evs r :
  run att cur evs r ->
  forall pre tx r0 post,
    evs = pre ++ Broadcast tx r0 :: post ->
    exists pre' built,
      pre = pre' ++ [Build isToken (Ok built); Logic (signature built) true] /\
      tx = transaction built.
Proof.
  induction 1 as [att cur Hge | att cur td sig Hlt Hacc
                 | att cur next evs rest r Hlt Hit Hrun IH];
    intros pre tx r0 post E.
  - destruct pre; discriminate.
  - symmetry in E. enum E pre. exists [], td. auto.
  - apply split_at in E. destruct E as [(m & E1 & E2)|(m & E1 & E2)].
    + destruct (iteration_broadcast_guarded _ _ _ _ _ _ _ _ Hit E1)
        as (built & e & -> & -> & _).
      exists [], built. auto.
    + destruct (IH _ _ _ _ E2) as (pre' & built & -> & ->).
      exists (evs ++ pre'), built. subst pre. rewrite app_assoc. auto.
Qed.

Lemma run_successful_broadcast_last att cur evs r :
  run att cur evs r ->
  forall pre tx sig post,
    evs = pre ++ Broadcast tx (Ok sig) :: post ->
    post = [] /\ grind_signature r = Some sig.
Proof.
  induction 1 as [att cur Hge | att cur td sg Hlt Hacc
                 | att cur next evs rest r Hlt Hit Hrun IH];
    intros pre tx sig post E.
  - destruct pre; discriminate.
  - symmetry in E. enum E pre. auto.
  - apply split_at in E. destruct E as [(m & E1 & E2)|(m & E1 & E2)].
    + destruct (iteration_broadcast_guarded _ _ _ _ _ _ _ _ Hit E1)
        as (built & e & _ & _ & D & _). discriminate.
    + exact (IH _ _ _ _ E2).
Qed.

Lemma run_failed_build_sleeps att cur evs r :
  run att cur evs r ->
  forall pre e post,
    evs = pre ++ Build isToken (Throw e) :: post ->
    exists post', post = Sleep 1000 :: post'.
Proof.
  induction 1 as [att cur Hge | att cur td sg Hlt Hacc
                 | att cur next evs rest r Hlt Hit Hrun IH];
    intros pre e post E.
  - destruct pre; discriminate.
  - symmetry in E. enum E pre.
  - apply split_at in E. destruct E as [(m & E1 & E2)|(m & E1 & E2)].
    + symmetry in E1. 
      assert (exists m', m = Sleep 1000 :: m') as [m' ->].
      { destruct Hit as [c e' | c td Hf | c td e' Ht].
        - enum E1 pre. eauto.
        - destruct (_ mod 10 =? 0); simpl in E1; enum E1 pre.
        - enum E1 pre. }
      subst post. exists (m' ++ rest). reflexivity.
    + exact (IH _ _ _ E2).
Qed.
Lemma run_failed_broadcast_sleeps att cur evs r :
  run att cur evs r ->
  forall pre tx e post,
    evs = pre ++ Broadcast tx (Throw e) :: post ->
    exists post', post = Sleep 1000 :: post'.
Proof.
  induction 1 as [att cur Hge | att cur td sg Hlt Hacc
                 | att cur next evs rest r Hlt Hit Hrun IH];
    intros pre tx e post E.
  - destruct pre; discriminate.
  - symmetry in E. enum E pre.
  - apply split_at in E. destruct E as [(m & E1 & E2)|(m & E1 & E2)].
    + destruct (iteration_broadcast_guarded _ _ _ _ _ _ _ _ Hit E1)
        as (built & e' & _ & _ & _ & ->).
      subst post. exists rest. reflexivity.
    + exact (IH _ _ _ _ E2).
Qed.

(** What follows an iteration that did not return: nothing, with the
    budget used up, or the build of the next iteration. *)
Lemma run_after_iteration att next rest r :
  run (att + 1) next rest r ->
  att < maxAttempts ->
  (rest = [] /\ maxAttempts = att + 1) \/
  exists rb tl, rest = Build isToken rb :: tl.
Proof.
  intros R Hlt.
  inversion R as [a c Hge | a c td sig Hl Hacc
                 | a c nx evs rs r0 Hl Hit Hrun]; subst.
  - left. split; [reflexivity|lia].
  - right. eauto.
  - right. destruct Hit as [c e | c td Hf | c td e Ht]; simpl; eauto.
Qed.

(** After a failed broadcast the loop waits 1000 ms and goes on: the next
    event is the build of the next attempt, unless the budget is used up. *)
Lemma run_failed_broadcast_next att cur evs r :
  run att cur evs r ->
  forall pre tx e post,
    evs = pre ++ Broadcast tx (Throw e) :: post ->
    exists post',
      post = Sleep 1000 :: post' /\
      ((post' = [] /\ count is_Build evs = Z.to_nat (maxAttempts - att)) \/
       exists rb post'', post' = Build isToken rb :: post'').
Proof.
  induction 1 as [att cur Hge | att cur td sg Hlt Hacc
                 | att cur next evs rest r Hlt Hit Hrun IH];
    intros pre tx e post E.
  - destruct pre; discriminate.
  - symmetry in E. enum E pre.
  - destruct (iteration_counts _ _ _ _ Hit) as (B & _).
    apply split_at in E. destruct E as [(m & E1 & E2)|(m & E1 & E2)].
    + destruct (iteration_broadcast_guarded _ _ _ _ _ _ _ _ Hit E1)
        as (built & e' & _ & _ & _ & ->).
      subst post. exists rest. split; [reflexivity|].
      destruct (run_after_iteration _ _ _ _ Hrun Hlt) as [[-> Hm]|Hn].
      * left. split; [reflexivity|]. rewrite app_nil_r, B. lia.
      * right. exact Hn.
    + destruct (IH _ _ _ _ E2) as (post' & -> & [[-> C]|Hn]).
      * exists []. split; [reflexivity|]. left. split; [reflexivity|].
        rewrite count_app, B, C. lia.
      * exists post'. split; [reflexivity|]. right. exact Hn.
Qed.

(** The same after a failed build. *)
Lemma run_failed_build_next att cur evs r :
  run att cur evs r ->
  forall pre e post,
    evs = pre ++ Build isToken (Throw e) :: post ->
    exists post',
      post = Sleep 1000 :: post' /\
      ((post' = [] /\ count is_Build evs = Z.to_nat (maxAttempts - att)) \/
       exists rb post'', post' = Build isToken rb :: post'').
Proof.
  induction 1 as [att cur Hge | att cur td sg Hlt Hacc
                 | att cur next evs rest r Hlt Hit Hrun IH];
    intros pre e post E.
  - destruct pre; discriminate.
  - symmetry in E. enum E pre.
  - destruct (iteration_counts _ _ _ _ Hit) as (B & _).
    apply split_at in E. destruct E as [(m & E1 & E2)|(m & E1 & E2)].
    + destruct (iteration_failed_build_sleeps _ _ _ _ _ _ _ Hit E1) as [_ ->].
      subst post. exists rest. split; [reflexivity|].
      destruct (run_after_iteration _ _ _ _ Hrun Hlt) as [[-> Hm]|Hn].
      * left. split; [reflexivity|]. rewrite app_nil_r, B. lia.
      * right. exact Hn.
    + destruct (IH _ _ _ E2) as (post' & -> & [[-> C]|Hn]).
      * exists []. split; [reflexivity|]. left. split; [reflexivity|].
        rewrite count_app, B, C. lia.
      * exists post'. split; [reflexivity|]. right. exact Hn.
Qed.

(** A run that ends without a signature has used the whole budget. *)
Lemma run_null_uses_budget att cur evs r :
  run att cur evs r ->
  grind_signature r = None ->
  count is_Build evs = Z.to_nat (maxAttempts - att).
Proof.
  induction 1 as [att cur Hge | att cur td sig Hlt Hacc
                 | att cur next evs rest r Hlt Hit Hrun IH]; intros Hnull.
  - unfold count. simpl. lia.
  - discriminate.
  - destruct (iteration_counts _ _ _ _ Hit) as (B & _).
    rewrite count_app, B, (IH Hnull). lia.
Qed.

(** Every call of the predicate comes right after a successful build, on
    that build's signature, and records the predicate's own answer. *)
Lemma run_logic_preceded att cur evs r :
  run att cur evs r ->
  forall pre sig accepted post,
    evs = pre ++ Logic sig accepted :: post ->
    exists pre' built,
      pre = pre' ++ [Build isToken (Ok built)] /\
      sig = signature built /\
      accepted = logicFunction sig.
Proof.
  induction 1 as [att cur Hge | att cur td sg Hlt Hacc
                 | att cur next evs rest r Hlt Hit Hrun IH];
    intros pre sig accepted post E.
  - destruct pre; discriminate.
  - symmetry in E. enum E pre. exists [], td. auto.
  - apply split_at in E. destruct E as [(m & E1 & E2)|(m & E1 & E2)].
    + symmetry in E1.
      destruct Hit as [c e | c td Hf | c td e Ht].
      * enum E1 pre.
      * destruct (_ mod 10 =? 0); simpl in E1; enum E1 pre;
          exists [], td; auto.
      * enum E1 pre. exists [], td. auto.
    + destruct (IH _ _ _ _ E2) as (pre' & built & -> & -> & ->).
      exists (evs ++ pre'), built. subst pre. rewrite app_assoc. auto.
Qed.

End RunShapes.

(* ================================================================== *)
(** * The grind loop: [createUntilLogicMatches] *)

Section GrindClaims.

Context {W : Type}.
Variable connection : Connection W.
Variable lib : Web3.
Variable network : NetworkType.

(** The builders read the gateway and nothing else of the state. *)
Lemma sign_and_serialize_gateway_only wallet t (s s' : state W) :
  gateway s = gateway s' ->
  fst (sign_and_serialize connection lib wallet t s)
  = fst (sign_and_serialize connection lib wallet t s') /\
  gateway (snd (sign_and_serialize connection lib wallet t s))
  = gateway (snd (sign_and_serialize connection lib wallet t s')).
Proof.
  intros G. unfold sign_and_serialize, bind, gateway_call, lift, ret.
  rewrite <- G.
  destruct (conn_getLatestBlockhash connection (gateway s)) as [[b|e] g];
    simpl; auto.
  destruct (Transaction_sign lib _ _) as [sig|e]; simpl; auto.
  destruct (Transaction_serialize lib _) as [ser|e]; simpl; auto.
Qed.

Lemma build_gateway_only wallet recipientAddress amount isToken (s s' : state W) :
  gateway s = gateway s' ->
  fst (build connection lib network wallet recipientAddress amount isToken s)
  = fst (build connection lib network wallet recipientAddress amount isToken s') /\
  gateway (snd (build connection lib network wallet recipientAddress amount isToken s))
  = gateway (snd (build connection lib network wallet recipientAddress amount isToken s')).
Proof.
  intros G. unfold build. destruct isToken.
  - unfold createAndSignTokenTransaction, try_catch, bind, lift, throw, gateway_call.
    destruct (PublicKey_new lib (getUsdcMint network)) as [mint|e]; simpl; auto.
    destruct (PublicKey_new lib recipientAddress) as [rpk|e]; simpl; auto.
    destruct (getAssociatedTokenAddress lib mint _) as [sata|e]; simpl; auto.
    destruct (getAssociatedTokenAddress lib mint rpk) as [rata|e]; simpl; auto.
    rewrite <- G.
    destruct (conn_getAccountInfo connection rata (gateway s)) as [[info|e] g];
      simpl; auto.
    destruct (BigInt (tokenAmount amount)) as [n|e]; simpl; auto.
    match goal with
    | |- (fst match sign_and_serialize ?c ?l ?w ?t ?s0 with _ => _ end
          = fst match sign_and_serialize _ _ _ _ ?s1 with _ => _ end) /\ _ =>
        destruct (sign_and_serialize_gateway_only w t s0 s1 eq_refl) as [F1 F2];
        destruct (sign_and_serialize c l w t s0) as [[td0|e0] s0'];
        destruct (sign_and_serialize c l w t s1) as [[td1|e1] s1'];
        simpl in *; try discriminate; auto
    end.
  - unfold createAndSignTransaction, try_catch, bind, lift, throw.
    destruct (PublicKey_new lib recipientAddress) as [pk|e]; simpl; auto.
    match goal with
    | |- (fst match sign_and_serialize ?c ?l ?w ?t ?s0 with _ => _ end
          = fst match sign_and_serialize _ _ _ _ ?s1 with _ => _ end) /\ _ =>
        destruct (sign_and_serialize_gateway_only w t s0 s1 G) as [F1 F2];
        destruct (sign_and_serialize c l w t s0) as [[td0|e0] s0'];
        destruct (sign_and_serialize c l w t s1) as [[td1|e1] s1'];
        simpl in *; try discriminate; auto
    end.
Qed.

Section Invocation.

Variable wallet : WalletInfo.
Variable recipientAddress : string.
Variable amount : number.
Variable logicFunction : string -> bool.
Variable isToken : bool.
Variable maxAttempts : Z.

Let build_ := build connection lib network wallet recipientAddress amount isToken.
Let grind_loop_ :=
  grind_loop connection lib network wallet recipientAddress amount logicFunction
    isToken maxAttempts.
Let grind :=
  createUntilLogicMatches connection lib network wallet recipientAddress amount
    logicFunction isToken maxAttempts.

(** C2, as amended.  In every invocation of the grind loop, whatever the
    predicate and the gateway do: the call returns normally and no error of
    a broadcast reaches the caller; each broadcast call comes immediately
    after the build of the same iteration and the predicate's acceptance of
    that build's signature, and sends that build's bytes; a broadcast that
    succeeds is the last event and its signature is returned, so at most
    one broadcast succeeds; a broadcast that fails is followed by the
    1000 ms delay and then by the build of the next attempt, the loop
    ending there only when the budget is used up, so the number of
    broadcast calls is bounded by the attempt budget, not by one, and a
    null signature is returned only after the whole budget was used. *)
Theorem grind_broadcast_discipline (s : state W) :
  let out := grind s in
  let evs := new_events s (snd out) in
  (exists r,
      fst out = Ok (Some r) /\
      (grind_signature r = None -> count is_Build evs = Z.to_nat maxAttempts)) /\
  (forall pre tx r0 post,
      evs = pre ++ Broadcast tx r0 :: post ->
      exists pre' built,
        pre = pre' ++ [Build isToken (Ok built); Logic (signature built) true] /\
        tx = transaction built) /\
  (forall pre tx sig post,
      evs = pre ++ Broadcast tx (Ok sig) :: post ->
      post = [] /\
      exists r, fst out = Ok (Some r) /\ grind_signature r = Some sig) /\
  (forall pre tx e post,
      evs = pre ++ Broadcast tx (Throw e) :: post ->
      exists post',
        post = Sleep 1000 :: post' /\
        ((post' = [] /\ count is_Build evs = Z.to_nat maxAttempts) \/
         exists rb post'', post' = Build isToken rb :: post'')) /\
  (count is_successful_Broadcast evs <= 1)%nat /\
  (count is_Broadcast evs <= Z.to_nat maxAttempts)%nat.
Proof.
  cbv zeta.
  destruct (grind_loop_total connection lib network wallet recipientAddress amount
              logicFunction isToken maxAttempts s) as (r & evs & E & N & R).
  fold grind in E, N. rewrite N.
  destruct (run_counts _ _ _ _ _ _ _ R) as (B & L & C & S).
  rewrite Z.sub_0_r in B.
  split; [|split; [|split; [|split; [|split]]]].
  - exists r. split; [exact E|]. intros Hnull.
    rewrite (run_null_uses_budget _ _ _ _ _ _ _ R Hnull).
    now rewrite Z.sub_0_r.
  - intros pre tx r0 post Hev. eapply run_broadcast_guarded; eauto.
  - intros pre tx sig post Hev. split.
    + eapply run_successful_broadcast_last; eauto.
    + exists r. split; [exact E|].
      eapply run_successful_broadcast_last; eauto.
  - intros pre tx e post Hev.
    destruct (run_failed_broadcast_next _ _ _ _ _ _ _ R _ _ _ _ Hev)
      as (post' & Hp & Hn).
    exists post'. split; [exact Hp|].
    rewrite Z.sub_0_r in Hn. exact Hn.
  - exact S.
  - lia.
Qed.

(** C4, as amended.  A build that fails does not end the loop: the call
    returns normally, the error is caught, the 1000 ms delay follows and
    the build of the next attempt comes next, the loop ending there only
    when the budget is used up; a null signature is returned only after
    the whole budget was used.  But the failed iteration has consumed an
    attempt: the builds, failed or not, never exceed the budget, and the
    predicate is evaluated once per build that did not fail, so failures
    take away from the predicate-evaluated attempts a budget allows. *)
Theorem grind_failed_build_consumes_attempt (s : state W) :
  let out := grind s in
  let evs := new_events s (snd out) in
  (exists r,
      fst out = Ok (Some r) /\
      (grind_signature r = None -> count is_Build evs = Z.to_nat maxAttempts)) /\
  (forall pre e post,
      evs = pre ++ Build isToken (Throw e) :: post ->
      exists post',
        post = Sleep 1000 :: post' /\
        ((post' = [] /\ count is_Build evs = Z.to_nat maxAttempts) \/
         exists rb post'', post' = Build isToken rb :: post'')) /\
  (count is_Build evs <= Z.to_nat maxAttempts)%nat /\
  (count is_Logic evs + count is_failed_Build evs = count is_Build evs)%nat.
Proof.
  cbv zeta.
  destruct (grind_loop_total connection lib network wallet recipientAddress amount
              logicFunction isToken maxAttempts s) as (r & evs & E & N & R).
  fold grind in E, N. rewrite N.
  destruct (run_counts _ _ _ _ _ _ _ R) as (B & L & C & S).
  rewrite Z.sub_0_r in B.
  split; [|split; [|split]].
  - exists r. split; [exact E|]. intros Hnull.
    rewrite (run_null_uses_budget _ _ _ _ _ _ _ R Hnull).
    now rewrite Z.sub_0_r.
  - intros pre e post Hev.
    destruct (run_failed_build_next _ _ _ _ _ _ _ R _ _ _ Hev)
      as (post' & Hp & Hn).
    exists post'. split; [exact Hp|].
    rewrite Z.sub_0_r in Hn. exact Hn.
  - exact B.
  - exact L.
Qed.

Lemma grind_loop_all_builds_fail (fuel : nat) :
  (forall s0, exists e, fst (build_ s0) = Throw e) ->
  forall (attempts : Z) (s : state W),
    (Z.to_nat (maxAttempts - attempts) < fuel)%nat ->
    var_txData s = None ->
    fst (grind_loop_ fuel attempts s)
    = Ok (Some {| txData := None; grind_signature := None |}).
Proof.
  intros Hfail.
  induction fuel as [|fuel IH]; intros attempts s Hfuel Hvar; [lia|].
  unfold grind_loop_. simpl. fold grind_loop_.
  destruct (attempts <? maxAttempts) eqn:Hlt.
  - apply Z.ltb_lt in Hlt.
    unfold bind. rewrite attempt_spec. fold build_.
    destruct (Hfail s) as [e He].
    destruct (build_ s) as [[built|e'] s1]; simpl in He; [discriminate|].
    apply IH; [lia|exact Hvar].
  - unfold bind, read_txData, ret. simpl. now rewrite Hvar.
Qed.

(** When the build fails in every state of the gateway, as it does for a
    recipient address that does not parse, the loop runs its budget out
    with the variable [txData] never assigned. *)
Theorem grind_all_builds_fail_txData_undefined (s : state W) :
  (forall s0, exists e, fst (build_ s0) = Throw e) ->
  fst (grind s) = Ok (Some {| txData := None; grind_signature := None |}).
Proof.
  intros Hfail.
  unfold grind, createUntilLogicMatches, bind, assign_txData.
  fold grind_loop_.
  apply grind_loop_all_builds_fail; [exact Hfail|lia|reflexivity].
Qed.

(** C5, as amended.  With a positive budget, when the first build succeeds, the
    predicate accepts its signature and the broadcast returns: the loop
    performs exactly one build and exactly one broadcast call, and returns
    that build's transaction data together with the value the broadcast
    call returned. *)
Theorem grind_first_attempt_accepted
  (s : state W) (built : TransactionData) (sig : string) :
  0 < maxAttempts ->
  fst (build_ s) = Ok built ->
  logicFunction (signature built) = true ->
  fst (conn_sendRawTransaction connection (transaction built)
         (gateway (snd (build_ s)))) = Ok sig ->
  let out := grind s in
  let evs := new_events s (snd out) in
  fst out = Ok (Some {| txData := Some built; grind_signature := Some sig |}) /\
  evs = [Build isToken (Ok built); Logic (signature built) true;
         Broadcast (transaction built) (Ok sig)] /\
  count is_Build evs = 1%nat /\
  count is_Broadcast evs = 1%nat.
Proof.
  intros Hpos Hbuild Hacc Hsend. cbv zeta.
  assert (E : exists s',
             grind s
             = (Ok (Some {| txData := Some built; grind_signature := Some sig |}), s')
             /\ trace s' = trace s ++ [Build isToken (Ok built);
                                       Logic (signature built) true;
                                       Broadcast (transaction built) (Ok sig)]).
  { unfold grind, createUntilLogicMatches, bind, assign_txData.
    simpl grind_loop.
    assert (Hlt : (0 <? maxAttempts) = true) by now apply Z.ltb_lt.
    rewrite Hlt. unfold bind. rewrite attempt_spec. fold build_.
    set (s0 := {| gateway := gateway s; trace := trace s; var_txData := None |}).
    destruct (build_gateway_only wallet recipientAddress amount isToken s s0 eq_refl)
      as [Hr Hg].
    fold build_ in Hr, Hg.
    destruct (build_ s0) as [rb s1]. simpl in Hr, Hg.
    rewrite Hbuild in Hr. subst rb. rewrite Hacc.
    rewrite Hg in Hsend.
    destruct (conn_sendRawTransaction connection (transaction built) (gateway s1))
      as [rs g2]. simpl in Hsend. subst rs.
    eexists. split; reflexivity. }
  destruct E as (s' & E & T). rewrite E. simpl fst. simpl snd.
  assert (N : new_events s s' = [Build isToken (Ok built);
                                 Logic (signature built) true;
                                 Broadcast (transaction built) (Ok sig)]).
  { unfold new_events. rewrite T, skipn_app, skipn_all, Nat.sub_diag.
    reflexivity. }
  rewrite N. repeat split.
Qed.

End Invocation.

(** C3.  For every attempt budget [n] and every predicate that rejects
    every signature, the loop performs exactly [n] build attempts, never
    calls broadcast, and returns a result whose signature is null. *)
Theorem grind_rejecting_predicate_exhausts_budget
  (wallet : WalletInfo) (recipientAddress : string) (amount : number)
  (logicFunction : string -> bool) (isToken : bool) (n : nat) (s : state W) :
  (forall sig, logicFunction sig = false) ->
  let out :=
    createUntilLogicMatches connection lib network wallet recipientAddress
      amount logicFunction isToken (Z.of_nat n) s in
  let evs := new_events s (snd out) in
  (exists r, fst out = Ok (Some r) /\ grind_signature r = None) /\
  count is_Build evs = n /\
  count is_Broadcast evs = 0%nat.
Proof.
  intros Hrej. cbv zeta.
  destruct (grind_loop_total connection lib network wallet recipientAddress amount
              logicFunction isToken (Z.of_nat n) s) as (r & evs & E & N & R).
  rewrite N.
  destruct (run_rejecting _ _ _ _ _ _ _ Hrej R) as (B & C & S).
  rewrite Z.sub_0_r, Nat2Z.id in B.
  repeat split; auto.
  exists r. auto.
Qed.

End GrindClaims.

(* ================================================================== *)
(** * Amount conversion *)

Lemma SF2Q_floor (x : spec_float) (q : Q) :
  SF2Q x = Some q ->
  exists n : Z,
    match x with
    | S754_finite s m e =>
        n = (if 0 <=? e then cond_Zopp s (Zpos m) * 2 ^ e
             else cond_Zopp s (Zpos m) / 2 ^ (- e))
    | _ => n = 0
    end /\
    (inject_Z n <= q)%Q /\ (q < inject_Z (n + 1))%Q.
Proof.
  destruct x as [s|s| |s m e]; simpl; intros H; try discriminate.
  - injection H as <-. exists 0.
    split; [reflexivity|]. split; [apply Qle_refl|reflexivity].
  - injection H as <-.
    set (n := cond_Zopp s (Zpos m)).
    destruct (0 <=? e) eqn:He.
    + exists (n * 2 ^ e).
      split; [reflexivity|]. split; [apply Qle_refl|].
      rewrite <- Zlt_Qlt. lia.
    + apply Z.leb_gt in He.
      assert (D : Zpos (2 ^ Z.to_pos (- e)) = 2 ^ (- e)).
      { rewrite Pos2Z.inj_pow, Z2Pos.id by lia. reflexivity. }
      assert (Dpos : 0 < 2 ^ (- e)) by (apply Z.pow_pos_nonneg; lia).
      exists (n / 2 ^ (- e)).
      split; [reflexivity|]. split.
      * unfold Qle. simpl. rewrite D, Z.mul_1_r.
        rewrite Z.mul_comm. apply Z.mul_div_le. exact Dpos.
      * unfold Qlt. simpl. rewrite D, Z.mul_1_r.
        rewrite Z.mul_comm.
        pose proof (Z.mul_succ_div_gt n (2 ^ (- e)) Dpos). lia.
Qed.

(** C8, as amended.  The conversion multiplies in binary64 arithmetic and
    then takes the floor: when the rounded product [amount * 10^6] is
    finite with value [q], the integer amount [n] satisfies
    [n <= q < n + 1], so the floor step truncates and never rounds; when
    the product is not finite, [BigInt] throws.  The number 1.5 converts to
    1500000 and the number 0.0000001 to 0.  (The multiplication itself
    rounds to the nearest binary64 value, so [n] need not be the floor of
    the exact product.) *)
Theorem tokenAmount_floor_of_rounded_product :
  (forall amount : number,
      match number_value (amount * Math_pow_10 USDC_DECIMALS)%float with
      | Some q =>
          exists n : Z,
            BigInt (tokenAmount amount) = Ok n /\
            (inject_Z n <= q)%Q /\ (q < inject_Z (n + 1))%Q
      | None => BigInt (tokenAmount amount) = Throw RangeError
      end) /\
  BigInt (tokenAmount 1.5%float) = Ok 1500000 /\
  BigInt (tokenAmount 0.0000001%float) = Ok 0.
Proof.
  split; [|split; vm_compute; reflexivity].
  intros amount. unfold number_value, tokenAmount, Math_floor.
  destruct (SF2Q (Prim2SF (amount * Math_pow_10 USDC_DECIMALS))) as [q|] eqn:V.
  - destruct (SF2Q_floor _ _ V) as (n & Hn & Hle & Hlt).
    exists n. split; [|split; assumption].
    destruct (Prim2SF (amount * Math_pow_10 USDC_DECIMALS)) as [s|s| |s m e];
      try discriminate; subst n.
    + destruct s; reflexivity.
    + reflexivity.
  - destruct (Prim2SF (amount * Math_pow_10 USDC_DECIMALS)) as [s|s| |s m e];
      try discriminate; reflexivity.
Qed.

(** C8, the counterexample.  The number 0.29 has the exact value
    [5224175567749775 / 2^54], a little below 29/100, and the floor of a
    million times that value is 289999; the conversion yields 290000,
    because the binary64 product rounds up to 290000.  And the decimal 8.2,
    whose million-fold is exactly 8200000, is the number [decimal 82 1],
    which the conversion takes to 8199999. *)
Lemma tokenAmount_not_exact_floor :
  (number_value 0.29%float = Some (5224175567749775 # 18014398509481984) /\
   Qfloor ((5224175567749775 # 18014398509481984) * 1000000) = 289999 /\
   BigInt (tokenAmount 0.29%float) = Ok 290000) /\
  (decimal 82 1 = 8.2%float /\
   Qfloor ((82 # 10) * 1000000) = 8200000 /\
   BigInt (tokenAmount (decimal 82 1)) = Ok 8199999).
Proof.
  repeat split; vm_compute; reflexivity.
Qed.

(* ================================================================== *)
(** * The one-shot methods *)

Section MethodClaims.

Context {W : Type}.
Variable connection : Connection W.
Variable lib : Web3.
Variable network : NetworkType.

Lemma new_events_app (s s' : state W) (evs : list event) :
  trace s' = trace s ++ evs -> new_events s s' = evs.
Proof.
  intros T. unfold new_events.
  rewrite T, skipn_app, skipn_all, Nat.sub_diag. reflexivity.
Qed.

(** ** [checkSignatureAndSubmit] *)

(** The method of [src/src/index.ts] consults no predicate: called with
    any transaction data and any predicate, also one that rejects the
    signature, it makes exactly one broadcast call, returns the broadcast
    signature when the gateway returns one, rethrows the gateway's error
    otherwise, and never returns null. *)
Lemma checkSignatureAndSubmit_ignores_predicate
  (txData : TransactionData) (customLogic : string -> bool) (s : state W) :
  let out := checkSignatureAndSubmit_call connection txData customLogic s in
  let sent :=
    fst (conn_sendRawTransaction connection (transaction txData) (gateway s)) in
  new_events s (snd out) = [Broadcast (transaction txData) sent] /\
  fst out = match sent with
            | Ok sig => Ok (Some sig)
            | Throw e => Throw e
            end /\
  fst out <> Ok None.
Proof.
  cbv zeta.
  unfold checkSignatureAndSubmit_call, checkSignatureAndSubmit, try_catch, bind,
    observe, gateway_call, ret, throw.
  destruct (conn_sendRawTransaction connection (transaction txData) (gateway s))
    as [[sig|e] g]; simpl.
  - split; [now apply new_events_app|]. split; [reflexivity|discriminate].
  - split; [now apply new_events_app|]. split; [reflexivity|discriminate].
Qed.

(** The method of [src/unnamed/part_000] does what the documentation of
    both versions says: it broadcasts if and only if the predicate accepts
    the signature, and returns null without a broadcast otherwise. *)
Lemma checkSignatureAndSubmit_part_000_gated
  (txData : TransactionData) (logicFunction : string -> bool) (s : state W) :
  let out := checkSignatureAndSubmit_part_000 connection txData logicFunction s in
  let sent :=
    fst (conn_sendRawTransaction connection (transaction txData) (gateway s)) in
  if logicFunction (signature txData) then
    new_events s (snd out)
    = [Logic (signature txData) true; Broadcast (transaction txData) sent] /\
    fst out = match sent with
              | Ok sig => Ok (Some sig)
              | Throw e => Throw e
              end
  else
    new_events s (snd out) = [Logic (signature txData) false] /\
    fst out = Ok None.
Proof.
  cbv zeta.
  unfold checkSignatureAndSubmit_part_000, try_catch, bind, emit,
    observe, gateway_call, ret, throw.
  destruct (logicFunction (signature txData)); simpl.
  - destruct (conn_sendRawTransaction connection (transaction txData) (gateway s))
      as [[sig|e] g]; simpl; (split; [|reflexivity]);
      apply new_events_app; simpl; rewrite <- app_assoc; reflexivity.
  - split; [|reflexivity]. now apply new_events_app.
Qed.

(** ** [createAndSignTokenTransaction] *)

Lemma sign_and_serialize_instructions wallet t (s : state W) built :
  fst (sign_and_serialize connection lib wallet t s) = Ok built ->
  instructions (rawTransaction built) = instructions t /\
  feePayer (rawTransaction built) = Some (kp_publicKey (wallet_keypair wallet)).
Proof.
  unfold sign_and_serialize, bind, gateway_call, lift, ret.
  destruct (conn_getLatestBlockhash connection (gateway s)) as [[b|e] g];
    simpl; [|discriminate].
  destruct (Transaction_sign lib _ _) as [sig|e]; simpl; [|discriminate].
  destruct (Transaction_serialize lib _) as [ser|e]; simpl; [|discriminate].
  intros H. injection H as <-. simpl. auto.
Qed.

(** C6.  Whenever the token-transfer build succeeds, its instruction set
    is determined by what the gateway reported for the recipient's derived
    holding account: absent, it is the create-holding-account operation
    paid by the sender followed by the token transfer; present, it is the
    token transfer alone. *)
Theorem token_build_conditional_account_creation
  (wallet : WalletInfo) (recipientAddress : string) (amount : number)
  (s : state W) (built : TransactionData) :
  fst (createAndSignTokenTransaction connection lib network wallet
         recipientAddress amount s) = Ok built ->
  let sender := kp_publicKey (wallet_keypair wallet) in
  exists (mint recipient senderAccount recipientAccount : PublicKey) (n : Z),
    PublicKey_new lib (getUsdcMint network) = Ok mint /\
    PublicKey_new lib recipientAddress = Ok recipient /\
    getAssociatedTokenAddress lib mint sender = Ok senderAccount /\
    getAssociatedTokenAddress lib mint recipient = Ok recipientAccount /\
    BigInt (tokenAmount amount) = Ok n /\
    let transfer :=
      createTransferInstruction senderAccount recipientAccount sender n []
        TOKEN_PROGRAM_ID in
    match fst (conn_getAccountInfo connection recipientAccount (gateway s)) with
    | Ok None =>
        instructions (rawTransaction built)
        = [createAssociatedTokenAccountInstruction sender recipientAccount
             recipient mint TOKEN_PROGRAM_ID ASSOCIATED_TOKEN_PROGRAM_ID;
           transfer]
    | Ok (Some _) => instructions (rawTransaction built) = [transfer]
    | Throw _ => False
    end.
Proof.
  cbv zeta.
  unfold createAndSignTokenTransaction, try_catch, bind, lift, throw, gateway_call.
  destruct (PublicKey_new lib (getUsdcMint network)) as [mint|e];
    simpl; [|discriminate].
  destruct (PublicKey_new lib recipientAddress) as [rpk|e]; simpl; [|discriminate].
  destruct (getAssociatedTokenAddress lib mint (kp_publicKey (wallet_keypair wallet)))
    as [sata|e] eqn:Hsata; simpl; [|discriminate].
  destruct (getAssociatedTokenAddress lib mint rpk) as [rata|e] eqn:Hrata;
    simpl; [|discriminate].
  destruct (conn_getAccountInfo connection rata (gateway s)) as [[info|e] g]
    eqn:Hinfo; simpl; [|discriminate].
  destruct (BigInt (tokenAmount amount)) as [n|e]; simpl; [|discriminate].
  intros H.
  exists mint, rpk, sata, rata, n.
  split; [reflexivity|]. split; [reflexivity|].
  split; [exact Hsata|]. split; [exact Hrata|]. split; [reflexivity|].
  rewrite Hinfo. simpl fst.
  match type of H with
  | fst (match sign_and_serialize ?c ?l ?w ?t ?s0 with _ => _ end) = _ =>
      pose proof (sign_and_serialize_instructions w t s0) as I;
      destruct (sign_and_serialize c l w t s0) as [[td|e] s']; simpl in *;
      [|discriminate]
  end.
  injection H as ->.
  destruct (I built eq_refl) as [Hi _]. rewrite Hi.
  destruct info; reflexivity.
Qed.

(** ** [getTokenBalance] *)

(** C7, as amended.  Once the address, the mint and the holding account
    have been derived, [getTokenBalance] returns 0 whenever the balance
    fetch fails, whatever the error ([AccountNotFound],
    [NetworkUnavailable] or any other), and the converted amount when the
    fetch succeeds: no failure of the fetch is propagated. *)
Theorem getTokenBalance_fetch_errors_become_zero
  (address : string) (s : state W) (publicKey mint tokenAccount : PublicKey) :
  PublicKey_new lib address = Ok publicKey ->
  PublicKey_new lib (getUsdcMint network) = Ok mint ->
  getAssociatedTokenAddress lib mint publicKey = Ok tokenAccount ->
  fst (getTokenBalance connection lib network address s)
  = match fst (conn_getTokenAccountBalance connection tokenAccount (gateway s)) with
    | Ok amount =>
        Ok (Number_of_string lib amount / Math_pow_10 USDC_DECIMALS)%float
    | Throw _ => Ok 0%float
    end.
Proof.
  intros Hpk Hmint Hata.
  unfold getTokenBalance, try_catch, bind, lift, throw, gateway_call, ret.
  rewrite Hpk. simpl. rewrite Hmint. simpl. rewrite Hata. simpl.
  destruct (conn_getTokenAccountBalance connection tokenAccount (gateway s))
    as [[amount|e] g]; reflexivity.
Qed.

(** Failures before the fetch are the ones that reach the caller. *)
Lemma getTokenBalance_invalid_address (address : string) (s : state W) (e : error) :
  PublicKey_new lib address = Throw e ->
  fst (getTokenBalance connection lib network address s) = Throw e.
Proof.
  intros Hpk.
  unfold getTokenBalance, try_catch, bind, lift, throw.
  rewrite Hpk. reflexivity.
Qed.

(** ** [createWallet] and [loadWalletFromSecretKey] *)

(** C9.  For the identity [createWallet] makes from any 32 random bytes,
    given that the public key derived from them has 32 bytes and that
    base-58 decoding inverts encoding on the secret key: restoring from the
    encoded secret succeeds and yields the same public address and the same
    raw secret-key bytes (indeed the same wallet). *)
Theorem wallet_round_trip (seed : bytes) :
  List.length seed = 32%nat ->
  List.length (ed25519_getPublicKey lib seed) = 32%nat ->
  bs58_decode lib (bs58_encode lib (seed ++ ed25519_getPublicKey lib seed))
  = Ok (seed ++ ed25519_getPublicKey lib seed) ->
  exists restored : WalletInfo,
    loadWalletFromSecretKey lib (wallet_secretKey (createWallet lib seed))
    = Ok restored /\
    wallet_publicKey restored = wallet_publicKey (createWallet lib seed) /\
    kp_secretKey (wallet_keypair restored)
    = kp_secretKey (wallet_keypair (createWallet lib seed)) /\
    restored = createWallet lib seed.
Proof.
  intros Hseed Hpk Hcodec.
  unfold loadWalletFromSecretKey, createWallet, Keypair_generate. simpl.
  rewrite Hcodec.
  unfold Keypair_fromSecretKey.
  rewrite length_app, Hseed, Hpk. simpl negb. cbv iota.
  assert (Hskip : skipn 32 (seed ++ ed25519_getPublicKey lib seed)
                  = ed25519_getPublicKey lib seed).
  { rewrite skipn_app, Hseed, Nat.sub_diag, skipn_all2 by lia. reflexivity. }
  assert (Hfirst : firstn 32 (seed ++ ed25519_getPublicKey lib seed) = seed).
  { rewrite firstn_app, Hseed, Nat.sub_diag, firstn_all2 by lia.
    simpl. apply app_nil_r. }
  rewrite Hskip, Hfirst.
  unfold bytes_eqb.
  destruct (list_eq_dec byte_eq_dec _ _) as [_|N]; [|now elim N].
  eexists. split; [reflexivity|]. simpl. auto.
Qed.

End MethodClaims.

(* ================================================================== *)
(** * Concrete runs on the test doubles *)

Section ConcreteRuns.

Import TestDouble.

(** C1, at a failing input.  Called as in [src/src/example.ts] with the
    transaction data of the example and a predicate that rejects its
    signature, [checkSignatureAndSubmit] broadcasts the transaction all the
    same and returns the broadcast signature, where its documentation
    promises no broadcast and null. *)
Theorem checkSignatureAndSubmit_broadcasts_on_rejection :
  reject_all (signature example_txData) = false /\
  fst (checkSignatureAndSubmit_call connection example_txData reject_all
         (initial (ledger [] [Ok "broadcast-1"%string])))
  = Ok (Some "broadcast-1"%string) /\
  new_events
    (initial (ledger [] [Ok "broadcast-1"%string]))
    (snd (checkSignatureAndSubmit_call connection example_txData reject_all
            (initial (ledger [] [Ok "broadcast-1"%string]))))
  = [Broadcast (transaction example_txData) (Ok "broadcast-1"%string)].
Proof.
  split; [reflexivity|].
  destruct (checkSignatureAndSubmit_ignores_predicate connection example_txData
              reject_all (initial (ledger [] [Ok "broadcast-1"%string])))
    as (E & R & _).
  split; [exact R|exact E].
Qed.

(** C2, the counterexample.  With a predicate that accepts every signature
    and a gateway that rejects every submission, one invocation with a
    budget of three makes three broadcast calls, and returns normally with
    a null signature instead of surfacing the rejection. *)
Lemma grind_rejected_broadcast_is_retried :
  count is_Broadcast
    (new_events (initial (ledger three_hashes []))
       (snd (createUntilLogicMatches connection lib devnet sender recipient
               100000%float accept_all false 3
               (initial (ledger three_hashes [])))))
  = 3%nat /\
  exists r : GrindResult,
    fst (createUntilLogicMatches connection lib devnet sender recipient
           100000%float accept_all false 3
           (initial (ledger three_hashes [])))
    = Ok (Some r) /\
    grind_signature r = None.
Proof.
  split; [vm_compute; reflexivity|].
  eexists. split; vm_compute; reflexivity.
Qed.

(** C4, the counterexample.  With a budget of one and a gateway whose
    first blockhash request fails and whose second would succeed, the loop
    makes the one failed build and gives up: the predicate, which would
    accept, is never evaluated and nothing is built a second time. *)
Lemma grind_failed_build_uses_up_budget :
  count is_Build
    (new_events (initial (ledger [Throw NetworkUnavailable; Ok "h1"%string] []))
       (snd (createUntilLogicMatches connection lib devnet sender recipient
               100000%float accept_all false 1
               (initial (ledger [Throw NetworkUnavailable; Ok "h1"%string] [])))))
  = 1%nat /\
  count is_Logic
    (new_events (initial (ledger [Throw NetworkUnavailable; Ok "h1"%string] []))
       (snd (createUntilLogicMatches connection lib devnet sender recipient
               100000%float accept_all false 1
               (initial (ledger [Throw NetworkUnavailable; Ok "h1"%string] [])))))
  = 0%nat /\
  fst (createUntilLogicMatches connection lib devnet sender recipient
         100000%float accept_all false 1
         (initial (ledger [Throw NetworkUnavailable; Ok "h1"%string] [])))
  = Ok (Some {| txData := None; grind_signature := None |}).
Proof.
  repeat split; vm_compute; reflexivity.
Qed.

(** C7, the counterexample.  When the balance fetch fails with
    [NetworkUnavailable], [getTokenBalance] returns 0 instead of
    propagating the failure. *)
Lemma getTokenBalance_swallows_NetworkUnavailable :
  fst (conn_getTokenAccountBalance connection recipient_account
         (ledger_failing_balance NetworkUnavailable))
  = Throw NetworkUnavailable /\
  fst (getTokenBalance connection lib devnet recipient
         (initial (ledger_failing_balance NetworkUnavailable)))
  = Ok 0%float.
Proof.
  split; vm_compute; reflexivity.
Qed.

(** A witness of C3: three builds, no broadcast, for the budget 3. *)
Lemma grind_rejecting_predicate_exhausts_budget_witness :
  (forall sig, reject_all sig = false) /\
  ((exists r,
       fst (createUntilLogicMatches connection lib devnet sender recipient
              100000%float reject_all false (Z.of_nat 3)
              (initial (ledger three_hashes []))) = Ok (Some r) /\
       grind_signature r = None) /\
   count is_Build
     (new_events (initial (ledger three_hashes []))
        (snd (createUntilLogicMatches connection lib devnet sender recipient
                100000%float reject_all false (Z.of_nat 3)
                (initial (ledger three_hashes []))))) = 3%nat /\
   count is_Broadcast
     (new_events (initial (ledger three_hashes []))
        (snd (createUntilLogicMatches connection lib devnet sender recipient
                100000%float reject_all false (Z.of_nat 3)
                (initial (ledger three_hashes []))))) = 0%nat).
Proof.
  split; [reflexivity|].
  apply (grind_rejecting_predicate_exhausts_budget connection lib devnet sender
           recipient 100000%float reject_all false 3
           (initial (ledger three_hashes []))).
  reflexivity.
Defined.

(** A witness of C5: the example's transfer, accepted at once and
    broadcast with the answer ["broadcast-1"]. *)
Lemma grind_first_attempt_accepted_witness :
  0 < 100 /\
  fst (build connection lib devnet sender recipient 100000%float false
         (initial (ledger three_hashes [Ok "broadcast-1"%string])))
  = Ok example_txData /\
  accept_all (signature example_txData) = true /\
  fst (createUntilLogicMatches connection lib devnet sender recipient
         100000%float accept_all false 100
         (initial (ledger three_hashes [Ok "broadcast-1"%string])))
  = Ok (Some {| txData := Some example_txData;
                grind_signature := Some "broadcast-1"%string |}).
Proof.
  assert (Hb : fst (build connection lib devnet sender recipient 100000%float false
                      (initial (ledger three_hashes [Ok "broadcast-1"%string])))
               = Ok example_txData) by (vm_compute; reflexivity).
  split; [reflexivity|]. split; [exact Hb|]. split; [reflexivity|].
  apply (grind_first_attempt_accepted connection lib devnet sender recipient
           100000%float accept_all false 100
           (initial (ledger three_hashes [Ok "broadcast-1"%string]))
           example_txData "broadcast-1"%string).
  - reflexivity.
  - exact Hb.
  - reflexivity.
  - vm_compute; reflexivity.
Defined.

(** On the test doubles: a recipient address that is no base-58 text
    makes every build fail. *)
Lemma grind_all_builds_fail_txData_undefined_witness :
  (forall s0 : state Ledger,
      exists e,
        fst (build connection lib devnet sender malformed 100000%float false s0)
        = Throw e) /\
  fst (createUntilLogicMatches connection lib devnet sender malformed
         100000%float accept_all false 5
         (initial (ledger three_hashes [Ok "broadcast-1"%string])))
  = Ok (Some {| txData := None; grind_signature := None |}).
Proof.
  assert (Hfail : forall s0 : state Ledger,
             exists e,
               fst (build connection lib devnet sender malformed 100000%float
                      false s0) = Throw e).
  { intros s0. exists InvalidAddress. reflexivity. }
  split; [exact Hfail|].
  apply (grind_all_builds_fail_txData_undefined connection lib devnet sender
           malformed 100000%float accept_all false 5
           (initial (ledger three_hashes [Ok "broadcast-1"%string])) Hfail).
Defined.

(** A witness of C6, on a ledger where the recipient's holding account is
    absent; the two lemmas after it evaluate both cases. *)
Lemma token_build_conditional_account_creation_witness :
  exists built : TransactionData,
    fst (createAndSignTokenTransaction connection lib devnet sender recipient
           1.5%float (initial (ledger three_hashes []))) = Ok built /\
    exists (mint recipient_ senderAccount recipientAccount : PublicKey) (n : Z),
      PublicKey_new lib (getUsdcMint devnet) = Ok mint /\
      PublicKey_new lib recipient = Ok recipient_ /\
      getAssociatedTokenAddress lib mint
        (kp_publicKey (wallet_keypair sender)) = Ok senderAccount /\
      getAssociatedTokenAddress lib mint recipient_ = Ok recipientAccount /\
      BigInt (tokenAmount 1.5%float) = Ok n /\
      match
        fst (conn_getAccountInfo connection recipientAccount
               (gateway (initial (ledger three_hashes []))))
      with
      | Ok None =>
          instructions (rawTransaction built)
          = [createAssociatedTokenAccountInstruction
               (kp_publicKey (wallet_keypair sender)) recipientAccount
               recipient_ mint TOKEN_PROGRAM_ID ASSOCIATED_TOKEN_PROGRAM_ID;
             createTransferInstruction senderAccount recipientAccount
               (kp_publicKey (wallet_keypair sender)) n [] TOKEN_PROGRAM_ID]
      | Ok (Some _) =>
          instructions (rawTransaction built)
          = [createTransferInstruction senderAccount recipientAccount
               (kp_publicKey (wallet_keypair sender)) n [] TOKEN_PROGRAM_ID]
      | Throw _ => False
      end.
Proof.
  eexists. split.
  - vm_compute. reflexivity.
  - apply (token_build_conditional_account_creation connection lib devnet sender
             recipient 1.5%float (initial (ledger three_hashes []))).
    vm_compute. reflexivity.
Defined.

Lemma token_build_recipient_account_absent :
  option_map (fun t => instructions (rawTransaction t))
    (unwrap None
       (match fst (createAndSignTokenTransaction connection lib devnet sender
                     recipient 1.5%float (initial (ledger three_hashes [])))
        with Ok t => Ok (Some t) | Throw e => Throw e end))
  = Some [createAssociatedTokenAccountInstruction
            (kp_publicKey (wallet_keypair sender)) recipient_account
            recipient_key usdc_mint_key
            TOKEN_PROGRAM_ID ASSOCIATED_TOKEN_PROGRAM_ID;
          createTransferInstruction
            {| pk_bytes := rev (pk_bytes (kp_publicKey (wallet_keypair sender))) |}
            recipient_account (kp_publicKey (wallet_keypair sender))
            1500000 [] TOKEN_PROGRAM_ID].
Proof. vm_compute. reflexivity. Qed.

Lemma token_build_recipient_account_present :
  option_map (fun t => instructions (rawTransaction t))
    (unwrap None
       (match fst (createAndSignTokenTransaction connection lib devnet sender
                     recipient 1.5%float
                     (initial (ledger_with_recipient_account three_hashes [])))
        with Ok t => Ok (Some t) | Throw e => Throw e end))
  = Some [createTransferInstruction
            {| pk_bytes := rev (pk_bytes (kp_publicKey (wallet_keypair sender))) |}
            recipient_account (kp_publicKey (wallet_keypair sender))
            1500000 [] TOKEN_PROGRAM_ID].
Proof. vm_compute. reflexivity. Qed.

(** A witness of C7: the fetch fails with [AccountNotFound], the balance
    is 0. *)
Lemma getTokenBalance_fetch_errors_become_zero_witness :
  PublicKey_new lib recipient = Ok recipient_key /\
  PublicKey_new lib (getUsdcMint devnet) = Ok usdc_mint_key /\
  getAssociatedTokenAddress lib usdc_mint_key recipient_key
  = Ok recipient_account /\
  fst (getTokenBalance connection lib devnet recipient
         (initial (ledger_failing_balance AccountNotFound)))
  = Ok 0%float.
Proof.
  assert (H1 : PublicKey_new lib recipient = Ok recipient_key)
    by (vm_compute; reflexivity).
  assert (H2 : PublicKey_new lib (getUsdcMint devnet) = Ok usdc_mint_key)
    by (vm_compute; reflexivity).
  assert (H3 : getAssociatedTokenAddress lib usdc_mint_key recipient_key
               = Ok recipient_account) by (vm_compute; reflexivity).
  split; [exact H1|]. split; [exact H2|]. split; [exact H3|].
  exact (getTokenBalance_fetch_errors_become_zero connection lib devnet recipient
           (initial (ledger_failing_balance AccountNotFound))
           recipient_key usdc_mint_key recipient_account H1 H2 H3).
Defined.

(** A witness of C9: the wallet made from [seed]. *)
Lemma wallet_round_trip_witness :
  List.length seed = 32%nat /\
  List.length (ed25519_getPublicKey lib seed) = 32%nat /\
  exists restored : WalletInfo,
    loadWalletFromSecretKey lib (wallet_secretKey (createWallet lib seed))
    = Ok restored /\
    wallet_publicKey restored = wallet_publicKey (createWallet lib seed) /\
    kp_secretKey (wallet_keypair restored)
    = kp_secretKey (wallet_keypair (createWallet lib seed)) /\
    restored = createWallet lib seed.
Proof.
  split; [reflexivity|]. split; [reflexivity|].
  apply (wallet_round_trip lib seed).
  - reflexivity.
  - reflexivity.
  - vm_compute. reflexivity.
Defined.

End ConcreteRuns.

(* ================================================================== *)
(** * Further properties of the grind loop *)

Lemma total_sleep_app (a b : list event) :
  total_sleep (a ++ b) = total_sleep a + total_sleep b.
Proof.
  induction a as [|e a IH]; simpl; [reflexivity|].
  destruct e; rewrite IH; lia.
Qed.

Lemma last_built_None (current : option TransactionData) (evs : list event) :
  last_built current evs = None <->
  current = None /\ forall b t, ~ In (Build b (Ok t)) evs.
Proof.
  revert current. induction evs as [|e evs IH]; intros current; simpl.
  - split; [auto|tauto].
  - destruct e as [b [t|err]|sig acc|tx r|ms]; rewrite IH.
    + split.
      * intros [H _]. discriminate.
      * intros [_ H]. exfalso. apply (H b t). now left.
    + split; intros [H1 H2]; (split; [exact H1|]); intros b' t' H.
      * destruct H as [H|H]; [discriminate|]. exact (H2 _ _ H).
      * apply (H2 b' t'). now right.
    + split; intros [H1 H2]; (split; [exact H1|]); intros b' t' H.
      * destruct H as [H|H]; [discriminate|]. exact (H2 _ _ H).
      * apply (H2 b' t'). now right.
    + split; intros [H1 H2]; (split; [exact H1|]); intros b' t' H.
      * destruct H as [H|H]; [discriminate|]. exact (H2 _ _ H).
      * apply (H2 b' t'). now right.
    + split; intros [H1 H2]; (split; [exact H1|]); intros b' t' H.
      * destruct H as [H|H]; [discriminate|]. exact (H2 _ _ H).
      * apply (H2 b' t'). now right.
Qed.

Section RunMeasures.

Variable logicFunction : string -> bool.
Variable isToken : bool.
Variable maxAttempts : Z.

Lemma iteration_last_built att cur next evs :
  iteration logicFunction isToken att cur next evs ->
  forall rest, last_built cur (evs ++ rest) = last_built next rest.
Proof.
  intros H rest. destruct H as [cur e | cur td Hf | cur td e Ht].
  - reflexivity.
  - destruct (att mod 10 =? 0); reflexivity.
  - reflexivity.
Qed.

Lemma run_last_built att cur evs r :
  run logicFunction isToken maxAttempts att cur evs r ->
  txData r = last_built cur evs.
Proof.
  induction 1 as [att cur Hge | att cur td sig Hlt Hacc
                 | att cur next evs rest r Hlt Hit Hrun IH].
  - reflexivity.
  - reflexivity.
  - rewrite (iteration_last_built _ _ _ _ Hit). exact IH.
Qed.

Lemma run_null_signature att cur evs r :
  run logicFunction isToken maxAttempts att cur evs r ->
  grind_signature r = None ->
  count is_Build evs = Z.to_nat (maxAttempts - att) /\
  count is_successful_Broadcast evs = 0%nat.
Proof.
  induction 1 as [att cur Hge | att cur td sig Hlt Hacc
                 | att cur next evs rest r Hlt Hit Hrun IH]; intros Hnull.
  - cbn. split; [lia|reflexivity].
  - discriminate.
  - destruct (IH Hnull) as [IB IS].
    destruct (iteration_counts _ _ _ _ _ _ Hit) as (B & _ & _ & S).
    rewrite !count_app. split; lia.
Qed.

Lemma run_signature_accepted att cur evs r sig :
  run logicFunction isToken maxAttempts att cur evs r ->
  grind_signature r = Some sig ->
  exists built pre,
    txData r = Some built /\
    logicFunction (signature built) = true /\
    evs = pre ++ [Build isToken (Ok built); Logic (signature built) true;
                  Broadcast (transaction built) (Ok sig)].
Proof.
  induction 1 as [att cur Hge | att cur td sg Hlt Hacc
                 | att cur next evs rest r Hlt Hit Hrun IH]; intros Hsig.
  - discriminate.
  - injection Hsig as ->. exists td, []. auto.
  - destruct (IH Hsig) as (built & pre & T & A & E).
    exists built, (evs ++ pre). subst rest. rewrite app_assoc. auto.
Qed.

Lemma iteration_build_then_logic att cur next evs pre b built post :
  iteration logicFunction isToken att cur next evs ->
  evs = pre ++ Build b (Ok built) :: post ->
  b = isToken /\
  exists post',
    post = Logic (signature built) (logicFunction (signature built)) :: post'.
Proof.
  intros H E. symmetry in E.
  destruct H as [cur e | cur td Hf | cur td e Ht].
  - enum E pre.
  - destruct (att mod 10 =? 0); simpl in E; enum E pre;
      rewrite Hf; eauto.
  - enum E pre. rewrite Ht. eauto.
Qed.

Lemma run_build_then_logic att cur evs r :
  run logicFunction isToken maxAttempts att cur evs r ->
  forall pre b built post,
    evs = pre ++ Build b (Ok built) :: post ->
    b = isToken /\
    exists post',
      post = Logic (signature built) (logicFunction (signature built)) :: post'.
Proof.
  induction 1 as [att cur Hge | att cur td sg Hlt Hacc
                 | att cur next evs rest r Hlt Hit Hrun IH];
    intros pre b built post E.
  - destruct pre; discriminate.
  - symmetry in E. enum E pre. rewrite Hacc. eauto.
  - apply split_at in E. destruct E as [(m & E1 & E2)|(m & E1 & E2)].
    + destruct (iteration_build_then_logic _ _ _ _ _ _ _ _ Hit E1)
        as (Hb & post' & ->).
      split; [exact Hb|]. subst post. eexists. reflexivity.
    + exact (IH _ _ _ _ E2).
Qed.

Lemma iteration_sleep att cur next evs :
  iteration logicFunction isToken att cur next evs ->
  total_sleep evs
  = (if is_failed_Build (hd (Sleep 0) evs) then 1000
     else if existsb is_Broadcast evs then 1000
     else 10 + (if att mod 10 =? 0 then 500 else 0)) /\
  count is_long_Sleep evs
  = (if existsb is_Logic evs && negb (existsb is_Broadcast evs)
        && (att mod 10 =? 0)
     then 1%nat else 0%nat).
Proof.
  intros H. destruct H as [cur e | cur td Hf | cur td e Ht].
  - split; reflexivity.
  - destruct (att mod 10 =? 0); split; reflexivity.
  - split; reflexivity.
Qed.

Lemma run_total_sleep_le att cur evs r :
  run logicFunction isToken maxAttempts att cur evs r ->
  0 <= total_sleep evs <= 1000 * Z.max 0 (maxAttempts - att).
Proof.
  induction 1 as [att cur Hge | att cur td sig Hlt Hacc
                 | att cur next evs rest r Hlt Hit Hrun IH].
  - simpl total_sleep. lia.
  - simpl total_sleep. lia.
  - rewrite total_sleep_app.
    destruct (iteration_sleep _ _ _ _ Hit) as [S _].
    assert (0 <= total_sleep evs <= 1000).
    { rewrite S. destruct (is_failed_Build _); [lia|].
      destruct (existsb _ _); [lia|].
      destruct (_ =? 0); lia. }
    lia.
Qed.

Lemma run_long_sleeps att cur evs r :
  run logicFunction isToken maxAttempts att cur evs r ->
  0 <= att ->
  (count is_long_Sleep evs <= Z.to_nat (maxAttempts / 10 - att / 10))%nat.
Proof.
  induction 1 as [att cur Hge | att cur td sig Hlt Hacc
                 | att cur next evs rest r Hlt Hit Hrun IH]; intros Hnn.
  - unfold count; simpl. lia.
  - unfold count; simpl. lia.
  - rewrite count_app.
    destruct (iteration_sleep _ _ _ _ Hit) as [_ L].
    specialize (IH ltac:(lia)).
    assert (Hc : (count is_long_Sleep evs
                  <= if ((att + 1) mod 10 =? 0)%Z then 1 else 0)%nat).
    { rewrite L. destruct (_ && _ && _) eqn:C.
      - apply andb_prop in C. destruct C as [_ C]. rewrite C. lia.
      - lia. }
    destruct ((att + 1) mod 10 =? 0) eqn:M.
    + apply Z.eqb_eq in M.
      Z.to_euclidean_division_equations. lia.
    + Z.to_euclidean_division_equations. lia.
Qed.

Lemma run_rejecting_sleep att cur evs r :
  run logicFunction isToken maxAttempts att cur evs r ->
  (forall sig, logicFunction sig = false) ->
  count is_failed_Build evs = 0%nat ->
  0 <= att <= maxAttempts ->
  total_sleep evs = 10 * (maxAttempts - att) + 500 * (maxAttempts / 10 - att / 10).
Proof.
  induction 1 as [att cur Hge | att cur td sig Hlt Hacc
                 | att cur next evs rest r Hlt Hit Hrun IH];
    intros Hrej Hnf Hatt.
  - simpl total_sleep. assert (att = maxAttempts) by lia. subst. lia.
  - rewrite Hrej in Hacc. discriminate.
  - rewrite count_app in Hnf.
    rewrite total_sleep_app, IH by (auto; lia).
    destruct Hit as [cur e | cur td Hf | cur td e Ht].
    + cbn in Hnf. lia.
    + destruct ((att + 1) mod 10 =? 0) eqn:M; cbn [total_sleep app].
      * apply Z.eqb_eq in M. Z.to_euclidean_division_equations. lia.
      * apply Z.eqb_neq in M. Z.to_euclidean_division_equations. lia.
    + rewrite Hrej in Ht. discriminate.
Qed.

End RunMeasures.

Section GrindExtras.

Context {W : Type}.
Variable connection : Connection W.
Variable lib : Web3.
Variable network : NetworkType.
Variable wallet : WalletInfo.
Variable recipientAddress : string.
Variable amount : number.
Variable logicFunction : string -> bool.
Variable isToken : bool.

(** X1.  With a budget of zero or less the loop body never runs: nothing
    is built, no event happens, the gateway is left as it was, and the
    result has neither transaction data nor signature. *)
Theorem grind_nonpositive_budget (maxAttempts : Z) (s : state W) :
  maxAttempts <= 0 ->
  let out :=
    createUntilLogicMatches connection lib network wallet recipientAddress
      amount logicFunction isToken maxAttempts s in
  fst out = Ok (Some {| txData := None; grind_signature := None |}) /\
  new_events s (snd out) = [] /\
  gateway (snd out) = gateway s.
Proof.
  intros Hle. cbv zeta.
  unfold createUntilLogicMatches, bind, assign_txData. simpl grind_loop.
  assert (Hlt : (0 <? maxAttempts) = false) by now apply Z.ltb_ge.
  rewrite Hlt. unfold bind, read_txData, ret. simpl.
  repeat split. unfold new_events. simpl. apply skipn_all.
Qed.

(** X2.  The transaction data the loop returns is that of the last build
    of the invocation that succeeded, and is undefined exactly when no
    build succeeded. *)
Theorem grind_returns_last_build (maxAttempts : Z) (s : state W) :
  let out :=
    createUntilLogicMatches connection lib network wallet recipientAddress
      amount logicFunction isToken maxAttempts s in
  exists r : GrindResult,
    fst out = Ok (Some r) /\
    txData r = last_built None (new_events s (snd out)) /\
    (txData r = None <->
     forall b t, ~ In (Build b (Ok t)) (new_events s (snd out))).
Proof.
  cbv zeta.
  destruct (grind_loop_total connection lib network wallet recipientAddress amount
              logicFunction isToken maxAttempts s) as (r & evs & E & N & R).
  exists r. split; [exact E|]. rewrite N.
  pose proof (run_last_built _ _ _ _ _ _ _ R) as L.
  split; [exact L|].
  rewrite L, last_built_None. tauto.
Qed.

(** X3.  The two ways the loop ends.  A null signature means the whole
    budget was used and no broadcast succeeded.  A signature means that the
    returned transaction data was accepted by the predicate, and that the
    invocation ended with its build, its acceptance and the successful
    broadcast of its bytes that returned this signature. *)
Theorem grind_outcome (maxAttempts : Z) (s : state W) :
  let out :=
    createUntilLogicMatches connection lib network wallet recipientAddress
      amount logicFunction isToken maxAttempts s in
  let evs := new_events s (snd out) in
  exists r : GrindResult,
    fst out = Ok (Some r) /\
    match grind_signature r with
    | None =>
        count is_Build evs = Z.to_nat maxAttempts /\
        count is_successful_Broadcast evs = 0%nat
    | Some sig =>
        exists built pre,
          txData r = Some built /\
          logicFunction (signature built) = true /\
          evs = pre ++ [Build isToken (Ok built); Logic (signature built) true;
                        Broadcast (transaction built) (Ok sig)]
    end.
Proof.
  cbv zeta.
  destruct (grind_loop_total connection lib network wallet recipientAddress amount
              logicFunction isToken maxAttempts s) as (r & evs & E & N & R).
  exists r. split; [exact E|]. rewrite N.
  destruct (grind_signature r) as [sig|] eqn:S.
  - eapply run_signature_accepted; eauto.
  - destruct (run_null_signature _ _ _ _ _ _ _ R S) as [B C].
    rewrite Z.sub_0_r in B. auto.
Qed.

(** X4.  The predicate is called exactly on the successful builds: every
    build that succeeds is immediately followed by one call of the
    predicate on that build's signature, recorded with the predicate's own
    answer; every call of the predicate comes immediately after a
    successful build and is on that build's signature; and the calls are as
    many as the builds that did not fail. *)
Theorem grind_predicate_follows_every_build (maxAttempts : Z) (s : state W) :
  let out :=
    createUntilLogicMatches connection lib network wallet recipientAddress
      amount logicFunction isToken maxAttempts s in
  let evs := new_events s (snd out) in
  (forall pre b built post,
      evs = pre ++ Build b (Ok built) :: post ->
      exists post',
        post
        = Logic (signature built) (logicFunction (signature built)) :: post') /\
  (forall pre sig accepted post,
      evs = pre ++ Logic sig accepted :: post ->
      exists pre' built,
        pre = pre' ++ [Build isToken (Ok built)] /\
        sig = signature built /\
        accepted = logicFunction sig) /\
  (count is_Logic evs + count is_failed_Build evs = count is_Build evs)%nat.
Proof.
  cbv zeta.
  destruct (grind_loop_total connection lib network wallet recipientAddress amount
              logicFunction isToken maxAttempts s) as (r & evs & E & N & R).
  rewrite N. split; [|split].
  - intros pre b built post Hev.
    destruct (run_build_then_logic _ _ _ _ _ _ _ R _ _ _ _ Hev) as [_ H].
    exact H.
  - intros pre sig accepted post Hev.
    eapply run_logic_preceded; eauto.
  - destruct (run_counts _ _ _ _ _ _ _ R) as (_ & L & _). exact L.
Qed.

(** X5.  The delays of one invocation add up to at most 1000 ms per
    attempt of the budget, and the 500 ms delay is taken at most once per
    ten attempts. *)
Theorem grind_delay_bounds (maxAttempts : Z) (s : state W) :
  let out :=
    createUntilLogicMatches connection lib network wallet recipientAddress
      amount logicFunction isToken maxAttempts s in
  let evs := new_events s (snd out) in
  0 <= total_sleep evs <= 1000 * Z.max 0 maxAttempts /\
  (count is_long_Sleep evs <= Z.to_nat (maxAttempts / 10))%nat.
Proof.
  cbv zeta.
  destruct (grind_loop_total connection lib network wallet recipientAddress amount
              logicFunction isToken maxAttempts s) as (r & evs & E & N & R).
  rewrite N. split.
  - pose proof (run_total_sleep_le _ _ _ _ _ _ _ R) as H.
    rewrite Z.sub_0_r in H. exact H.
  - pose proof (run_long_sleeps _ _ _ _ _ _ _ R (Z.le_refl 0)) as H.
    change (0 / 10) with 0 in H. rewrite Z.sub_0_r in H. exact H.
Qed.

(** X6.  When the predicate rejects every signature and no build fails,
    an invocation with budget [m] waits 10 ms after each of its [m]
    attempts and 500 ms more after every tenth: [10 m + 500 (m / 10)]
    milliseconds in all. *)
Theorem grind_rejecting_delay (maxAttempts : Z) (s : state W) :
  (forall sig, logicFunction sig = false) ->
  0 <= maxAttempts ->
  let out :=
    createUntilLogicMatches connection lib network wallet recipientAddress
      amount logicFunction isToken maxAttempts s in
  let evs := new_events s (snd out) in
  count is_failed_Build evs = 0%nat ->
  total_sleep evs = 10 * maxAttempts + 500 * (maxAttempts / 10).
Proof.
  intros Hrej Hnn. cbv zeta.
  destruct (grind_loop_total connection lib network wallet recipientAddress amount
              logicFunction isToken maxAttempts s) as (r & evs & E & N & R).
  rewrite N. intros Hnf.
  rewrite (run_rejecting_sleep _ _ _ _ _ _ _ R Hrej Hnf) by lia.
  change (0 / 10) with 0. lia.
Qed.

End GrindExtras.

Section GrindWithoutBuild.

Context {W : Type}.
Variable connection : Connection W.
Variable lib : Web3.
Variable network : NetworkType.

(** C10.  If every build attempt of an invocation fails, whatever the
    reason and whatever the builds would do in other states of the gateway,
    the loop uses its whole budget and returns with the variable [txData]
    never assigned: the [txData] field of the result is undefined, and the
    signature is null. *)
Theorem grind_no_successful_build_txData_undefined
  (wallet : WalletInfo) (recipientAddress : string) (amount : number)
  (logicFunction : string -> bool) (isToken : bool) (maxAttempts : Z)
  (s : state W) :
  let out :=
    createUntilLogicMatches connection lib network wallet recipientAddress
      amount logicFunction isToken maxAttempts s in
  let evs := new_events s (snd out) in
  (forall b t, ~ In (Build b (Ok t)) evs) ->
  fst out = Ok (Some {| txData := None; grind_signature := None |}) /\
  count is_Build evs = Z.to_nat maxAttempts /\
  count is_failed_Build evs = count is_Build evs.
Proof.
  cbv zeta.
  destruct (grind_loop_total connection lib network wallet recipientAddress amount
              logicFunction isToken maxAttempts s) as (r & evs & E & N & R).
  rewrite N. intros Hnone.
  assert (Ht : txData r = None).
  { rewrite (run_last_built _ _ _ _ _ _ _ R).
    apply (proj2 (last_built_None None evs)). split; [reflexivity|exact Hnone]. }
  assert (Hs : grind_signature r = None).
  { destruct (grind_signature r) as [sig|] eqn:S; [|reflexivity].
    destruct (run_signature_accepted _ _ _ _ _ _ _ _ R S)
      as (built & pre & _ & _ & Hev).
    exfalso. apply (Hnone isToken built). rewrite Hev.
    apply in_or_app. right. now left. }
  split; [|split].
  - rewrite E. destruct r as [t g]. simpl in Ht, Hs. subst. reflexivity.
  - rewrite (run_null_uses_budget _ _ _ _ _ _ _ R Hs). now rewrite Z.sub_0_r.
  - destruct (run_counts _ _ _ _ _ _ _ R) as (_ & L & _).
    assert (Hl : count is_Logic evs = 0%nat).
    { unfold count. destruct (filter is_Logic evs) as [|e l] eqn:F;
        [reflexivity|].
      assert (Hin : In e (filter is_Logic evs)) by (rewrite F; now left).
      apply filter_In in Hin. destruct Hin as [Hin He].
      destruct e as [b rb|sig acc|tx rb|ms]; try discriminate.
      apply in_split in Hin. destruct Hin as (pre & post & Hev).
      destruct (run_logic_preceded _ _ _ _ _ _ _ R _ _ _ _ Hev)
        as (pre' & built & -> & _).
      exfalso. apply (Hnone isToken built). rewrite Hev.
      apply in_or_app. left. apply in_or_app. right. now left. }
    lia.
Qed.

End GrindWithoutBuild.

(* ================================================================== *)
(** * Further properties of the builders and the queries *)

Section MethodExtras.

Context {W : Type}.
Variable connection : Connection W.
Variable lib : Web3.
Variable network : NetworkType.

Lemma sign_and_serialize_result wallet t (s : state W) built :
  fst (sign_and_serialize connection lib wallet t s) = Ok built ->
  exists blockhash sig,
    fst (conn_getLatestBlockhash connection (gateway s)) = Ok blockhash /\
    Transaction_sign lib
      (set_feePayer (set_recentBlockhash t blockhash)
         (kp_publicKey (wallet_keypair wallet)))
      (wallet_keypair wallet) = Ok sig /\
    rawTransaction built
    = set_signature
        (set_feePayer (set_recentBlockhash t blockhash)
           (kp_publicKey (wallet_keypair wallet))) sig /\
    signature built = bs58_encode lib sig /\
    Transaction_serialize lib (rawTransaction built) = Ok (transaction built).
Proof.
  unfold sign_and_serialize, bind, gateway_call, lift, ret.
  destruct (conn_getLatestBlockhash connection (gateway s)) as [[b|e] g];
    simpl; [|discriminate].
  destruct (Transaction_sign lib _ _) as [sig|e] eqn:Hsig; simpl; [|discriminate].
  destruct (Transaction_serialize lib _) as [ser|e] eqn:Hser; simpl; [|discriminate].
  intros H. injection H as <-. simpl.
  exists b, sig. repeat split; auto.
Qed.

(** X7.  A native transfer that builds successfully consists of the one
    system transfer from the wallet's key to the parsed recipient for the
    given lamports, carries the blockhash the gateway returned and the
    sender as fee payer, and its data are consistent: the signature is the
    one computed over the unsigned transaction, the text signature is its
    base-58 form, and the bytes are the serialization of the signed
    transaction. *)
Theorem native_build_content
  (wallet : WalletInfo) (recipientAddress : string) (lamports : number)
  (s : state W) (built : TransactionData) :
  fst (createAndSignTransaction connection lib wallet recipientAddress lamports s)
  = Ok built ->
  let sender := kp_publicKey (wallet_keypair wallet) in
  exists (recipient : PublicKey) (blockhash : string) (sig : bytes),
    PublicKey_new lib recipientAddress = Ok recipient /\
    fst (conn_getLatestBlockhash connection (gateway s)) = Ok blockhash /\
    rawTransaction built
    = {| instructions := [SystemProgram_transfer sender recipient lamports];
         recentBlockhash := Some blockhash;
         feePayer := Some sender;
         tx_signature := Some sig |} /\
    Transaction_sign lib (unsigned (rawTransaction built)) (wallet_keypair wallet)
    = Ok sig /\
    signature built = bs58_encode lib sig /\
    Transaction_serialize lib (rawTransaction built) = Ok (transaction built).
Proof.
  cbv zeta.
  unfold createAndSignTransaction, try_catch, bind, lift, throw.
  destruct (PublicKey_new lib recipientAddress) as [rpk|e]; simpl; [|discriminate].
  match goal with
  | |- fst (match sign_and_serialize ?c ?l ?w ?t ?s0 with _ => _ end) = _ -> _ =>
      pose proof (sign_and_serialize_result w t s0) as R;
      destruct (sign_and_serialize c l w t s0) as [[td|e] s']; simpl in *;
      [|discriminate]
  end.
  intros H. injection H as ->.
  destruct (R built eq_refl) as (b & sig & Hb & Hs & Hraw & Htxt & Hser).
  exists rpk, b, sig. rewrite Hraw in *. simpl in *.
  repeat split; auto.
Qed.

(** X8.  Whatever kind of transfer is built, a successful build returns
    consistent data: the sender is the fee payer, a blockhash is attached,
    the text signature is the base-58 form of the signature stored in the
    transaction, and the bytes are the serialization of that signed
    transaction. *)
Theorem build_data_consistent
  (wallet : WalletInfo) (recipientAddress : string) (amount : number)
  (isToken : bool) (s : state W) (built : TransactionData) :
  fst (build connection lib network wallet recipientAddress amount isToken s)
  = Ok built ->
  feePayer (rawTransaction built) = Some (kp_publicKey (wallet_keypair wallet)) /\
  (exists blockhash, recentBlockhash (rawTransaction built) = Some blockhash) /\
  (exists sig,
      tx_signature (rawTransaction built) = Some sig /\
      signature built = bs58_encode lib sig /\
      Transaction_sign lib (unsigned (rawTransaction built)) (wallet_keypair wallet)
      = Ok sig) /\
  Transaction_serialize lib (rawTransaction built) = Ok (transaction built).
Proof.
  assert (Tail : forall t s0,
             tx_signature t = None ->
             fst (sign_and_serialize connection lib wallet t s0) = Ok built ->
             feePayer (rawTransaction built)
             = Some (kp_publicKey (wallet_keypair wallet)) /\
             (exists blockhash,
                 recentBlockhash (rawTransaction built) = Some blockhash) /\
             (exists sig,
                 tx_signature (rawTransaction built) = Some sig /\
                 signature built = bs58_encode lib sig /\
                 Transaction_sign lib (unsigned (rawTransaction built))
                   (wallet_keypair wallet) = Ok sig) /\
             Transaction_serialize lib (rawTransaction built)
             = Ok (transaction built)).
  { intros t s0 Ht H.
    destruct (sign_and_serialize_result _ _ _ _ H)
      as (b & sig & Hb & Hs & Hraw & Htxt & Hser).
    rewrite Hraw in *.
    unfold unsigned, set_signature, set_feePayer, set_recentBlockhash in *.
    simpl in *. rewrite Ht in Hs.
    split; [reflexivity|]. split; [eauto|]. split; [|exact Hser].
    exists sig. auto. }
  unfold build. destruct isToken.
  - unfold createAndSignTokenTransaction, try_catch, bind, lift, throw, gateway_call.
    destruct (PublicKey_new lib (getUsdcMint network)) as [mint|e];
      simpl; [|discriminate].
    destruct (PublicKey_new lib recipientAddress) as [rpk|e]; simpl; [|discriminate].
    destruct (getAssociatedTokenAddress lib mint _) as [sata|e];
      simpl; [|discriminate].
    destruct (getAssociatedTokenAddress lib mint rpk) as [rata|e];
      simpl; [|discriminate].
    destruct (conn_getAccountInfo connection rata (gateway s)) as [[info|e] g];
      simpl; [|discriminate].
    destruct (BigInt (tokenAmount amount)) as [n|e]; simpl; [|discriminate].
    match goal with
    | |- fst (match sign_and_serialize ?c ?l ?w ?t ?s0 with _ => _ end) = _ -> _ =>
        pose proof (Tail t s0) as R;
        destruct (sign_and_serialize c l w t s0) as [[td|e] s']; simpl in *;
        [|discriminate]
    end.
    intros H. injection H as ->. apply R; [|reflexivity].
    destruct info; reflexivity.
  - unfold createAndSignTransaction, try_catch, bind, lift, throw.
    destruct (PublicKey_new lib recipientAddress) as [rpk|e]; simpl; [|discriminate].
    match goal with
    | |- fst (match sign_and_serialize ?c ?l ?w ?t ?s0 with _ => _ end) = _ -> _ =>
        pose proof (Tail t s0) as R;
        destruct (sign_and_serialize c l w t s0) as [[td|e] s']; simpl in *;
        [|discriminate]
    end.
    intros H. injection H as ->. apply R; reflexivity.
Qed.

(** X9.  A recipient address that does not parse makes either build fail
    before anything is asked of the gateway: the state after the call is
    the state before it, and the native build throws the parse error
    itself. *)
Theorem build_invalid_recipient
  (wallet : WalletInfo) (recipientAddress : string) (amount : number)
  (e : error) (s : state W) :
  PublicKey_new lib recipientAddress = Throw e ->
  createAndSignTransaction connection lib wallet recipientAddress amount s
  = (Throw e, s) /\
  exists e',
    createAndSignTokenTransaction connection lib network wallet recipientAddress
      amount s = (Throw e', s).
Proof.
  intros Hbad. split.
  - unfold createAndSignTransaction, try_catch, bind, lift, throw.
    rewrite Hbad. reflexivity.
  - unfold createAndSignTokenTransaction, try_catch, bind, lift, throw.
    destruct (PublicKey_new lib (getUsdcMint network)) as [mint|e0]; simpl.
    + rewrite Hbad. simpl. eauto.
    + eauto.
Qed.

(** X10.  An amount whose product with [10^6] is not a finite number (NaN
    or an infinity) never yields a token transaction: the build fails in
    every state. *)
Theorem token_build_non_finite_amount
  (wallet : WalletInfo) (recipientAddress : string) (amount : number)
  (s : state W) :
  number_value (amount * Math_pow_10 USDC_DECIMALS)%float = None ->
  exists e,
    fst (createAndSignTokenTransaction connection lib network wallet
           recipientAddress amount s) = Throw e.
Proof.
  intros Hnf.
  assert (Hbig : BigInt (tokenAmount amount) = Throw RangeError).
  { unfold number_value in Hnf. unfold tokenAmount, Math_floor.
    destruct (Prim2SF (amount * Math_pow_10 USDC_DECIMALS)) as [z|i| |sg m ex];
      simpl in Hnf; try discriminate; reflexivity. }
  unfold createAndSignTokenTransaction, try_catch, bind, lift, throw, gateway_call.
  destruct (PublicKey_new lib (getUsdcMint network)) as [mint|e]; simpl; eauto.
  destruct (PublicKey_new lib recipientAddress) as [rpk|e]; simpl; eauto.
  destruct (getAssociatedTokenAddress lib mint _) as [sata|e]; simpl; eauto.
  destruct (getAssociatedTokenAddress lib mint rpk) as [rata|e]; simpl; eauto.
  destruct (conn_getAccountInfo connection rata (gateway s)) as [[info|e] g];
    simpl; eauto.
  rewrite Hbig. simpl. eauto.
Qed.

End MethodExtras.

Section QueryExtras.

Context {W : Type}.
Variable connection : Connection W.
Variable lib : Web3.
Variable network : NetworkType.

(** X11.  [getBalance] returns a value exactly when the address parses
    and the gateway returns the lamports, and the value is then the
    lamports divided by [10^9]; a failed fetch is never turned into a
    balance. *)
Theorem getBalance_returns_iff (address : string) (s : state W) (b : number) :
  fst (getBalance connection lib address s) = Ok b <->
  exists publicKey lamports,
    PublicKey_new lib address = Ok publicKey /\
    fst (conn_getBalance connection publicKey (gateway s)) = Ok lamports /\
    b = (lamports / 1000000000)%float.
Proof.
  unfold getBalance, try_catch, bind, lift, throw, gateway_call, ret.
  destruct (PublicKey_new lib address) as [pk|e]; simpl.
  - destruct (conn_getBalance connection pk (gateway s)) as [[l|e] g] eqn:F; simpl.
    + split.
      * intros H. injection H as <-. exists pk, l. rewrite F. auto.
      * intros (pk' & l' & Hpk & Hl & ->). injection Hpk as <-.
        rewrite F in Hl. simpl in Hl. injection Hl as <-. reflexivity.
    + split; [discriminate|].
      intros (pk' & l' & Hpk & Hl & _). injection Hpk as <-.
      rewrite F in Hl. discriminate.
  - split; [discriminate|]. intros (pk' & l' & Hpk & _). discriminate.
Qed.

(** X12.  [getTokenBalance] throws exactly when one of the three steps
    before the fetch throws (parsing the address, parsing the mint,
    deriving the holding account), and then throws that step's error. *)
Theorem getTokenBalance_throws_iff (address : string) (s : state W) (e : error) :
  fst (getTokenBalance connection lib network address s) = Throw e <->
  PublicKey_new lib address = Throw e \/
  exists publicKey,
    PublicKey_new lib address = Ok publicKey /\
    (PublicKey_new lib (getUsdcMint network) = Throw e \/
     exists mint,
       PublicKey_new lib (getUsdcMint network) = Ok mint /\
       getAssociatedTokenAddress lib mint publicKey = Throw e).
Proof.
  unfold getTokenBalance, try_catch, bind, lift, throw, gateway_call, ret.
  destruct (PublicKey_new lib address) as [pk|e1]; simpl.
  - destruct (PublicKey_new lib (getUsdcMint network)) as [mint|e2]; simpl.
    + destruct (getAssociatedTokenAddress lib mint pk) as [acct|e3] eqn:A; simpl.
      * destruct (conn_getTokenAccountBalance connection acct (gateway s))
          as [[amount|e4] g]; simpl.
        -- split; [discriminate|].
           intros [H|(pk' & Hpk & [H|(m' & Hm & Ha)])]; try discriminate.
           injection Hpk as <-. injection Hm as <-. rewrite A in Ha. discriminate.
        -- split; [discriminate|].
           intros [H|(pk' & Hpk & [H|(m' & Hm & Ha)])]; try discriminate.
           injection Hpk as <-. injection Hm as <-. rewrite A in Ha. discriminate.
      * split.
        -- intros H. right. exists pk. split; [reflexivity|]. right.
           exists mint. split; [reflexivity|].
           injection H as ->. exact A.
        -- intros [H|(pk' & Hpk & [H|(m' & Hm & Ha)])]; try discriminate.
           injection Hpk as <-. injection Hm as <-. rewrite A in Ha.
           injection Ha as ->. reflexivity.
    + split.
      * intros H. right. exists pk. split; [reflexivity|]. left.
        injection H as ->. reflexivity.
      * intros [H|(pk' & Hpk & [H|(m' & Hm & Ha)])]; try discriminate.
        injection H as ->. reflexivity.
  - split.
    + intros H. left. injection H as ->. reflexivity.
    + intros [H|(pk' & Hpk & _)]; [|discriminate].
      injection H as ->. reflexivity.
Qed.

(** X13.  [loadWalletFromSecretKey] succeeds exactly on the texts that
    decode to 64 bytes whose second half is the public key of the first
    half.  The wallet it returns keeps the text as given, holds the decoded
    bytes as its raw secret key and their second half as its public key,
    and shows that key in base-58. *)
Theorem loadWallet_succeeds_iff (secretKey : string) (w : WalletInfo) :
  loadWalletFromSecretKey lib secretKey = Ok w <->
  exists raw : bytes,
    bs58_decode lib secretKey = Ok raw /\
    List.length raw = 64%nat /\
    skipn 32 raw = ed25519_getPublicKey lib (firstn 32 raw) /\
    w = {| wallet_publicKey := bs58_encode lib (skipn 32 raw);
           wallet_secretKey := secretKey;
           wallet_keypair :=
             {| kp_publicKey := {| pk_bytes := skipn 32 raw |};
                kp_secretKey := raw |} |}.
Proof.
  unfold loadWalletFromSecretKey.
  destruct (bs58_decode lib secretKey) as [raw|e].
  - unfold Keypair_fromSecretKey, bytes_eqb, PublicKey_toString.
    destruct (List.length raw =? 64)%nat eqn:L; cbn [negb].
    + apply Nat.eqb_eq in L.
      destruct (list_eq_dec byte_eq_dec (skipn 32 raw)
                  (ed25519_getPublicKey lib (firstn 32 raw))) as [E|N].
      * split.
        -- intros H. injection H as <-. exists raw. auto.
        -- intros (raw' & Hd & _ & _ & ->). injection Hd as <-. reflexivity.
      * split; [discriminate|].
        intros (raw' & Hd & _ & E & _). injection Hd as <-. contradiction.
    + apply Nat.eqb_neq in L. split; [discriminate|].
      intros (raw' & Hd & L' & _). injection Hd as <-. contradiction.
  - split; [discriminate|]. intros (raw' & Hd & _). discriminate.
Qed.

End QueryExtras.

(* ================================================================== *)
(** * The client object *)

Section ClientExtras.

Variable clusterApiUrl : NetworkType -> string.

(** X14.  After construction and any sequence of [setNetwork] calls, the
    client's endpoint and its USDC mint belong to one network: the last one
    set, or the constructor's (devnet when omitted) if none was. *)
Theorem client_network_consistent
  (first : option NetworkType) (calls : list NetworkType) :
  let this := after_calls clusterApiUrl first calls in
  let current :=
    last calls (match first with Some n => n | None => devnet end) in
  client_network this = current /\
  client_endpoint this = clusterApiUrl current /\
  Client_getUsdcMint this = USDC_MINT current.
Proof.
  cbv zeta. unfold after_calls, Client_getUsdcMint.
  assert (G : forall c,
             client_endpoint c = clusterApiUrl (client_network c) ->
             let this :=
               fold_left (fun this n => setNetwork clusterApiUrl n this) calls c in
             client_network this = last calls (client_network c) /\
             client_endpoint this = clusterApiUrl (client_network this)).
  { assert (D : forall (l : list NetworkType) a d d',
               last (a :: l) d = last (a :: l) d').
    { induction l as [|b l IHl]; intros a d d'; [reflexivity|].
      change (last (b :: l) d = last (b :: l) d'). apply IHl. }
    induction calls as [|n calls IH]; intros c Hc.
    - simpl. auto.
    - destruct (IH (setNetwork clusterApiUrl n c) eq_refl) as [IN IE].
      cbn [fold_left]. split; [|exact IE].
      rewrite IN. cbn [setNetwork client_network].
      destruct calls as [|m calls]; [reflexivity|].
      change (last (m :: calls) n = last (m :: calls) (client_network c)).
      apply D. }
  destruct (G (SolanaClient_new clusterApiUrl first) eq_refl) as [N E].
  simpl in N. rewrite E, N. auto.
Qed.

End ClientExtras.

(* ================================================================== *)
(** * The drivers *)

Lemma charAt_last (pre : string) (c : ascii) :
  charAt (pre ++ String c EmptyString)
    (Z.of_nat (String.length (pre ++ String c EmptyString)) - 1)
  = String c EmptyString.
Proof.
  unfold charAt.
  assert (L : String.length (pre ++ String c EmptyString)
              = S (String.length pre)).
  { induction pre as [|a pre IH]; simpl; [reflexivity|]. now rewrite IH. }
  rewrite L.
  replace (Z.of_nat (S (String.length pre)) - 1) with (Z.of_nat (String.length pre))
    by lia.
  destruct (Z.of_nat (String.length pre) <? 0) eqn:N;
    [apply Z.ltb_lt in N; lia|].
  rewrite Nat2Z.id.
  assert (G : String.get (String.length pre) (pre ++ String c EmptyString) = Some c).
  { clear. induction pre as [|a pre IH]; simpl; [reflexivity|exact IH]. }
  now rewrite G.
Qed.

Lemma customLogic_winners_char (c : ascii) :
  customLogic_winners (String c EmptyString)
  = (is_alphanumeric c && Nat.even (nat_of_ascii c),
     is_alphanumeric c && Nat.odd (nat_of_ascii c)).
Proof.
  destruct c as [[] [] [] [] [] [] [] []]; vm_compute; reflexivity.
Qed.

(** X15.  The predicate of the driver looks at the last character only
    and ignores its case: it accepts exactly the signatures that end in an
    ASCII letter or digit whose character code is odd, and the even-winner
    flag it computes beside it holds exactly for those that end in a letter
    or digit with an even code; the empty signature is rejected. *)
Theorem customLogic_by_last_character :
  customLogic EmptyString = false /\
  forall (pre : string) (c : ascii),
    customLogic_winners (pre ++ String c EmptyString)
    = (is_alphanumeric c && Nat.even (nat_of_ascii c),
       is_alphanumeric c && Nat.odd (nat_of_ascii c)) /\
    customLogic (pre ++ String c EmptyString)
    = is_alphanumeric c && Nat.odd (nat_of_ascii c).
Proof.
  split; [reflexivity|].
  intros pre c.
  assert (Wn : customLogic_winners (pre ++ String c EmptyString)
               = customLogic_winners (String c EmptyString)).
  { unfold customLogic_winners. rewrite charAt_last. reflexivity. }
  unfold customLogic. rewrite Wn, customLogic_winners_char. auto.
Qed.

Section DriverExtras.

Context {W : Type}.
Variable connection : Connection W.
Variable lib : Web3.
Variable clusterApiUrl : NetworkType -> string.

Lemma getTokenBalance_frame network address (s : state W) :
  trace (snd (getTokenBalance connection lib network address s)) = trace s.
Proof.
  unfold getTokenBalance, try_catch, bind, lift, throw, gateway_call, ret.
  destruct (PublicKey_new lib address) as [pk|e]; simpl; auto.
  destruct (PublicKey_new lib (getUsdcMint network)) as [mint|e]; simpl; auto.
  destruct (getAssociatedTokenAddress lib mint pk) as [acct|e]; simpl; auto.
  destruct (conn_getTokenAccountBalance connection acct (gateway s))
    as [[amount|e] g]; simpl; auto.
Qed.

Lemma checkSignatureAndSubmit_spec (txData : TransactionData) (s : state W) :
  checkSignatureAndSubmit connection txData s =
  let (r, g) := conn_sendRawTransaction connection (transaction txData) (gateway s) in
  (match r with Ok sig => Ok (Some sig) | Throw e => Throw e end,
   {| gateway := g;
      trace := trace s ++ [Broadcast (transaction txData) r];
      var_txData := var_txData s |}).
Proof.
  unfold checkSignatureAndSubmit, try_catch, bind, observe, gateway_call,
    ret, throw.
  destruct (conn_sendRawTransaction connection (transaction txData) (gateway s))
    as [[sig|e] g]; reflexivity.
Qed.

Lemma balance_block_spec network address (s : state W) :
  exists s',
    try_catch
      (balance <- getTokenBalance connection lib network address ;; ret tt)
      (fun error => ret tt) s = (Ok tt, s') /\
    trace s' = trace s.
Proof.
  unfold try_catch at 1. unfold bind at 1.
  pose proof (getTokenBalance_frame network address s) as F.
  destruct (getTokenBalance connection lib network address s) as [[b|e] s'];
    simpl in F; unfold ret; eauto.
Qed.

(** X16.  The driver of [src/unnamed/part_000] never throws, whatever the
    gateway does.  If its token build fails nothing else happens; if the
    build succeeds the predicate is asked once, and the transaction is
    broadcast, once, exactly when the predicate accepts its signature. *)
Theorem example_part_000_behaviour (seed : bytes) (s : state W) :
  let out := example_part_000 connection lib clusterApiUrl seed s in
  let evs := new_events s (snd out) in
  fst out = Ok tt /\
  match
    fst (createAndSignTokenTransaction connection lib mainnet_beta
           (createWallet lib seed)
           "Dghnvn5Mjpgi4JyGLebQ4fubVytvjTy59xkrYCLHaFTm" 10%float s)
  with
  | Throw _ => evs = []
  | Ok built =>
      if customLogic (signature built)
      then exists r,
          evs = [Logic (signature built) true; Broadcast (transaction built) r]
      else evs = [Logic (signature built) false]
  end.
Proof.
  cbv zeta.
  assert (E : exists s',
             example_part_000 connection lib clusterApiUrl seed s = (Ok tt, s') /\
             trace s' = trace s ++
               match
                 fst (createAndSignTokenTransaction connection lib mainnet_beta
                        (createWallet lib seed)
                        "Dghnvn5Mjpgi4JyGLebQ4fubVytvjTy59xkrYCLHaFTm" 10%float s)
               with
               | Throw _ => []
               | Ok built =>
                   if customLogic (signature built)
                   then [Logic (signature built) true;
                         Broadcast (transaction built)
                           (fst (conn_sendRawTransaction connection
                                   (transaction built)
                                   (gateway
                                      (snd (createAndSignTokenTransaction
                                              connection lib mainnet_beta
                                              (createWallet lib seed)
                                              "Dghnvn5Mjpgi4JyGLebQ4fubVytvjTy59xkrYCLHaFTm"
                                              10%float s)))))]
                   else [Logic (signature built) false]
               end).
  { unfold example_part_000. cbn [SolanaClient_new client_network].
    unfold try_catch at 1. unfold bind at 1.
    match goal with
    | |- context [createAndSignTokenTransaction ?c ?l ?n ?w ?r ?a s] =>
        pose proof (createAndSignTokenTransaction_frame c l n w r a s) as [Ft _];
        destruct (createAndSignTokenTransaction c l n w r a s) as [[built|e] s1]
    end; cbn [fst snd] in *.
    - unfold bind at 1. unfold emit at 1.
      destruct (customLogic (signature built)) eqn:Acc.
      + unfold bind at 1. rewrite checkSignatureAndSubmit_spec.
        cbn [gateway trace var_txData].
        destruct (conn_sendRawTransaction connection (transaction built) (gateway s1))
          as [[sig|e] g2].
        * match goal with
          | |- context [try_catch _ _ ?s0] =>
              destruct (balance_block_spec mainnet_beta
                          (wallet_publicKey (createWallet lib seed)) s0)
                as (s3 & Eb & Fb)
          end.
          rewrite Eb. exists s3. split; [reflexivity|].
          rewrite Fb. cbn [trace fst]. rewrite Ft, <- app_assoc. reflexivity.
        * unfold ret. eexists. split; [reflexivity|].
          cbn [trace fst]. rewrite Ft, <- app_assoc. reflexivity.
      + unfold ret. eexists. split; [reflexivity|].
        cbn [trace]. rewrite Ft. reflexivity.
    - unfold ret. eexists. split; [reflexivity|].
      rewrite Ft, app_nil_r. reflexivity. }
  destruct E as (s' & E & T). rewrite E. cbn [fst snd].
  split; [reflexivity|].
  rewrite (new_events_app _ _ _ T).
  destruct (fst (createAndSignTokenTransaction _ _ _ _ _ _ s)) as [built|e];
    [|reflexivity].
  destruct (customLogic (signature built)); [|reflexivity].
  eexists. reflexivity.
Qed.

(** X17.  The driver of [src/src/example.ts] on the client of
    [src/src/index.ts].  If the fixed secret key does not load, the driver
    throws that error before touching anything.  Otherwise it never throws:
    a failed build leaves the client on devnet with nothing sent; a
    successful build is broadcast exactly once, and the client is switched
    to testnet exactly when that broadcast succeeded. *)
Theorem example_src_behaviour (s : state W) :
  let out := example_src connection lib clusterApiUrl s in
  let evs := new_events s (snd out) in
  let client := SolanaClient_new clusterApiUrl (Some devnet) in
  match
    loadWalletFromSecretKey lib
      "444k7wD5rjhg3o3rAcBddWsC3Ng2CxZJwYcV8FyGqsawJEx13WdS6HzLwTqVLR5dLszKNzBq776M7azpHjc22wsa"
  with
  | Throw e => out = (Throw e, s)
  | Ok wallet =>
      match
        fst (createAndSignTransaction connection lib wallet
               "83astBRguLMdt2h5U1Tpdq5tjFoJ6noeGwaY3mDLVcri" 100000%float s)
      with
      | Throw _ => fst out = Ok client /\ evs = []
      | Ok txData =>
          exists r,
            evs = [Broadcast (transaction txData) r] /\
            fst out = Ok (match r with
                          | Ok _ => setNetwork clusterApiUrl testnet client
                          | Throw _ => client
                          end)
      end
  end.
Proof.
  cbv zeta.
  destruct (loadWalletFromSecretKey lib _) as [wallet|e] eqn:Hload.
  - assert (E : exists s',
               example_src connection lib clusterApiUrl s
               = (Ok (match
                        fst (createAndSignTransaction connection lib wallet
                               "83astBRguLMdt2h5U1Tpdq5tjFoJ6noeGwaY3mDLVcri"
                               100000%float s)
                      with
                      | Throw _ => SolanaClient_new clusterApiUrl (Some devnet)
                      | Ok txData =>
                          match
                            fst (conn_sendRawTransaction connection
                                   (transaction txData)
                                   (gateway
                                      (snd (createAndSignTransaction connection
                                              lib wallet
                                              "83astBRguLMdt2h5U1Tpdq5tjFoJ6noeGwaY3mDLVcri"
                                              100000%float s))))
                          with
                          | Ok _ =>
                              setNetwork clusterApiUrl testnet
                                (SolanaClient_new clusterApiUrl (Some devnet))
                          | Throw _ => SolanaClient_new clusterApiUrl (Some devnet)
                          end
                      end), s') /\
               trace s' = trace s ++
                 match
                   fst (createAndSignTransaction connection lib wallet
                          "83astBRguLMdt2h5U1Tpdq5tjFoJ6noeGwaY3mDLVcri"
                          100000%float s)
                 with
                 | Throw _ => []
                 | Ok txData =>
                     [Broadcast (transaction txData)
                        (fst (conn_sendRawTransaction connection
                                (transaction txData)
                                (gateway
                                   (snd (createAndSignTransaction connection
                                           lib wallet
                                           "83astBRguLMdt2h5U1Tpdq5tjFoJ6noeGwaY3mDLVcri"
                                           100000%float s)))))]
                 end).
    { unfold example_src. unfold bind at 1. unfold lift. rewrite Hload.
      unfold try_catch at 1. unfold bind at 1.
      match goal with
      | |- context [createAndSignTransaction ?c ?l ?w ?r ?a s] =>
          pose proof (createAndSignTransaction_frame c l w r a s) as [Ft _];
          destruct (createAndSignTransaction c l w r a s) as [[txData|e] s1]
      end; cbn [fst snd] in *.
      - unfold bind at 1. unfold checkSignatureAndSubmit_call.
        rewrite checkSignatureAndSubmit_spec.
        destruct (conn_sendRawTransaction connection (transaction txData)
                    (gateway s1)) as [[sig|e] g2]; unfold ret;
          (eexists; split; [reflexivity|]); cbn [trace fst]; rewrite Ft;
          reflexivity.
      - unfold ret. eexists. split; [reflexivity|].
        rewrite Ft, app_nil_r. reflexivity. }
    destruct E as (s' & E & T). rewrite E. cbn [fst snd].
    rewrite (new_events_app _ _ _ T).
    destruct (fst (createAndSignTransaction _ _ _ _ _ s)) as [txData|e];
      [|split; reflexivity].
    eexists. split; reflexivity.
  - unfold example_src. unfold bind at 1. unfold lift. rewrite Hload.
    reflexivity.
Qed.

End DriverExtras.

(* ================================================================== *)
(** * The earlier copy of [checkSignatureAndSubmit] *)

Section EarlierCopy.

Context {W : Type}.
Variable connection : Connection W.

(** X18.  The copy of [checkSignatureAndSubmit] in [src/unnamed/part_000]
    asks the predicate exactly once and broadcasts exactly when it accepts
    the signature: on acceptance there is one broadcast call, whose
    signature is returned and whose error is rethrown; on rejection there
    is none, and null is returned; null is returned in no other case. *)
Theorem checkSignatureAndSubmit_part_000_broadcasts_iff_accepted
  (txData : TransactionData) (logicFunction : string -> bool) (s : state W) :
  let out := checkSignatureAndSubmit_part_000 connection txData logicFunction s in
  let evs := new_events s (snd out) in
  count is_Logic evs = 1%nat /\
  count is_Broadcast evs = (if logicFunction (signature txData) then 1 else 0)%nat /\
  (fst out = Ok None <-> logicFunction (signature txData) = false) /\
  (logicFunction (signature txData) = true ->
   fst out
   = match
       fst (conn_sendRawTransaction connection (transaction txData) (gateway s))
     with
     | Ok sig => Ok (Some sig)
     | Throw e => Throw e
     end).
Proof.
  cbv zeta.
  pose proof (checkSignatureAndSubmit_part_000_gated connection txData
                logicFunction s) as G.
  cbv zeta in G.
  destruct (logicFunction (signature txData)).
  - destruct G as [Ev R]. rewrite Ev, R.
    split; [reflexivity|]. split; [reflexivity|]. split.
    + split; [|discriminate].
      destruct (fst (conn_sendRawTransaction connection (transaction txData)
                       (gateway s))); discriminate.
    + reflexivity.
  - destruct G as [Ev R]. rewrite Ev, R.
    split; [reflexivity|]. split; [reflexivity|]. split.
    + split; reflexivity.
    + discriminate.
Qed.

End EarlierCopy.

(* ================================================================== *)
(** * Concrete runs for the further properties *)

Section ConcreteExtras.

Import TestDouble.
Import Scenarios.

(** A witness of X1: the budget 0. *)
Lemma grind_nonpositive_budget_witness :
  0 <= 0 /\
  fst (createUntilLogicMatches connection lib devnet sender recipient
         100000%float accept_all false 0
         (initial (ledger three_hashes [Ok "broadcast-1"%string])))
  = Ok (Some {| txData := None; grind_signature := None |}).
Proof.
  split; [lia|].
  apply (grind_nonpositive_budget connection lib devnet sender recipient
           100000%float accept_all false 0
           (initial (ledger three_hashes [Ok "broadcast-1"%string]))).
  lia.
Defined.

(** A witness of X6: ten rejected attempts wait 600 ms. *)
Lemma grind_rejecting_delay_witness :
  (forall sig, reject_all sig = false) /\
  0 <= 10 /\
  count is_failed_Build
    (new_events (initial (ledger ten_hashes []))
       (snd (createUntilLogicMatches connection lib devnet sender recipient
               100000%float reject_all false 10
               (initial (ledger ten_hashes []))))) = 0%nat /\
  total_sleep
    (new_events (initial (ledger ten_hashes []))
       (snd (createUntilLogicMatches connection lib devnet sender recipient
               100000%float reject_all false 10
               (initial (ledger ten_hashes [])))))
  = 10 * 10 + 500 * (10 / 10).
Proof.
  assert (H : count is_failed_Build
                (new_events (initial (ledger ten_hashes []))
                   (snd (createUntilLogicMatches connection lib devnet sender
                           recipient 100000%float reject_all false 10
                           (initial (ledger ten_hashes []))))) = 0%nat)
    by (vm_compute; reflexivity).
  split; [reflexivity|]. split; [lia|]. split; [exact H|].
  apply (grind_rejecting_delay connection lib devnet sender recipient
           100000%float reject_all false 10 (initial (ledger ten_hashes []))).
  - reflexivity.
  - lia.
  - exact H.
Defined.

(** A witness of X7: the native transfer of the example. *)
Lemma native_build_content_witness :
  fst (createAndSignTransaction connection lib sender recipient 100000%float
         (initial (ledger three_hashes []))) = Ok example_txData /\
  exists (recipient_ : PublicKey) (blockhash : string) (sig : bytes),
    PublicKey_new lib recipient = Ok recipient_ /\
    fst (conn_getLatestBlockhash connection
           (gateway (initial (ledger three_hashes [])))) = Ok blockhash /\
    rawTransaction example_txData
    = {| instructions :=
           [SystemProgram_transfer (kp_publicKey (wallet_keypair sender))
              recipient_ 100000%float];
         recentBlockhash := Some blockhash;
         feePayer := Some (kp_publicKey (wallet_keypair sender));
         tx_signature := Some sig |} /\
    Transaction_sign lib (unsigned (rawTransaction example_txData))
      (wallet_keypair sender) = Ok sig /\
    signature example_txData = bs58_encode lib sig /\
    Transaction_serialize lib (rawTransaction example_txData)
    = Ok (transaction example_txData).
Proof.
  assert (H : fst (createAndSignTransaction connection lib sender recipient
                     100000%float (initial (ledger three_hashes [])))
              = Ok example_txData) by (vm_compute; reflexivity).
  split; [exact H|].
  exact (native_build_content connection lib sender recipient 100000%float
           (initial (ledger three_hashes [])) example_txData H).
Defined.

(** A witness of X8: a token transfer on the test ledger. *)
Lemma build_data_consistent_witness :
  exists built : TransactionData,
    fst (build connection lib devnet sender recipient 1.5%float true
           (initial (ledger three_hashes []))) = Ok built /\
    Transaction_serialize lib (rawTransaction built) = Ok (transaction built).
Proof.
  eexists. split.
  - vm_compute. reflexivity.
  - apply (build_data_consistent connection lib devnet sender recipient
             1.5%float true (initial (ledger three_hashes []))).
    vm_compute. reflexivity.
Defined.

(** A witness of X9: a recipient that is no base-58 text. *)
Lemma build_invalid_recipient_witness :
  PublicKey_new lib malformed = Throw InvalidAddress /\
  createAndSignTransaction connection lib sender malformed 100000%float
    (initial (ledger three_hashes []))
  = (Throw InvalidAddress, initial (ledger three_hashes [])).
Proof.
  assert (H : PublicKey_new lib malformed = Throw InvalidAddress)
    by (vm_compute; reflexivity).
  split; [exact H|].
  apply (build_invalid_recipient connection lib devnet sender malformed
           100000%float InvalidAddress (initial (ledger three_hashes [])) H).
Defined.

(** A witness of X10: the amount Infinity. *)
Lemma token_build_non_finite_amount_witness :
  number_value (infinity * Math_pow_10 USDC_DECIMALS)%float = None /\
  exists e,
    fst (createAndSignTokenTransaction connection lib devnet sender recipient
           infinity (initial (ledger three_hashes []))) = Throw e.
Proof.
  assert (H : number_value (infinity * Math_pow_10 USDC_DECIMALS)%float = None)
    by (vm_compute; reflexivity).
  split; [exact H|].
  exact (token_build_non_finite_amount connection lib devnet sender recipient
           infinity (initial (ledger three_hashes [])) H).
Defined.

(** C5, the counterexample.  The predicate accepts every signature, so
    also the first one it is given.  When the first blockhash request
    fails, that signature comes from the second build: two builds are made
    before the one broadcast.  When the gateway rejects every submission,
    a budget of two gives two builds and two broadcast calls, and a null
    signature. *)
Lemma grind_accepting_predicate_more_than_one_build :
  (count is_Build
     (new_events
        (initial (ledger [Throw NetworkUnavailable; Ok "h1"%string]
                    [Ok "broadcast-1"%string]))
        (snd (createUntilLogicMatches connection lib devnet sender recipient
                100000%float accept_all false 100
                (initial (ledger [Throw NetworkUnavailable; Ok "h1"%string]
                            [Ok "broadcast-1"%string])))))
   = 2%nat /\
   count is_Broadcast
     (new_events
        (initial (ledger [Throw NetworkUnavailable; Ok "h1"%string]
                    [Ok "broadcast-1"%string]))
        (snd (createUntilLogicMatches connection lib devnet sender recipient
                100000%float accept_all false 100
                (initial (ledger [Throw NetworkUnavailable; Ok "h1"%string]
                            [Ok "broadcast-1"%string])))))
   = 1%nat) /\
  (count is_Build
     (new_events (initial (ledger three_hashes []))
        (snd (createUntilLogicMatches connection lib devnet sender recipient
                100000%float accept_all false 2
                (initial (ledger three_hashes [])))))
   = 2%nat /\
   count is_Broadcast
     (new_events (initial (ledger three_hashes []))
        (snd (createUntilLogicMatches connection lib devnet sender recipient
                100000%float accept_all false 2
                (initial (ledger three_hashes [])))))
   = 2%nat /\
   exists r : GrindResult,
     fst (createUntilLogicMatches connection lib devnet sender recipient
            100000%float accept_all false 2
            (initial (ledger three_hashes [])))
     = Ok (Some r) /\
     grind_signature r = None).
Proof.
  split; split; try (vm_compute; reflexivity).
  split; [vm_compute; reflexivity|].
  eexists. split; vm_compute; reflexivity.
Qed.

(** A witness of C10: the recipient is well-formed and the two blockhash
    requests of a budget of two fail. *)
Lemma grind_no_successful_build_txData_undefined_witness :
  (forall b t,
      ~ In (Build b (Ok t))
          (new_events
             (initial (ledger [Throw NetworkUnavailable; Throw NetworkUnavailable]
                         [Ok "broadcast-1"%string]))
             (snd (createUntilLogicMatches connection lib devnet sender recipient
                     100000%float accept_all false 2
                     (initial (ledger [Throw NetworkUnavailable;
                                       Throw NetworkUnavailable]
                                 [Ok "broadcast-1"%string])))))) /\
  fst (createUntilLogicMatches connection lib devnet sender recipient
         100000%float accept_all false 2
         (initial (ledger [Throw NetworkUnavailable; Throw NetworkUnavailable]
                     [Ok "broadcast-1"%string])))
  = Ok (Some {| txData := None; grind_signature := None |}).
Proof.
  assert (Hev : new_events
                  (initial (ledger [Throw NetworkUnavailable;
                                    Throw NetworkUnavailable]
                              [Ok "broadcast-1"%string]))
                  (snd (createUntilLogicMatches connection lib devnet sender
                          recipient 100000%float accept_all false 2
                          (initial (ledger [Throw NetworkUnavailable;
                                            Throw NetworkUnavailable]
                                      [Ok "broadcast-1"%string]))))
                = [Build false (Throw NetworkUnavailable); Sleep 1000;
                   Build false (Throw NetworkUnavailable); Sleep 1000])
    by (vm_compute; reflexivity).
  assert (Hnone : forall b t,
             ~ In (Build b (Ok t))
                 (new_events
                    (initial (ledger [Throw NetworkUnavailable;
                                      Throw NetworkUnavailable]
                                [Ok "broadcast-1"%string]))
                    (snd (createUntilLogicMatches connection lib devnet sender
                            recipient 100000%float accept_all false 2
                            (initial (ledger [Throw NetworkUnavailable;
                                              Throw NetworkUnavailable]
                                        [Ok "broadcast-1"%string])))))).
  { intros b t. rewrite Hev. intros [H|[H|[H|[H|[]]]]]; discriminate. }
  split; [exact Hnone|].
  apply (grind_no_successful_build_txData_undefined connection lib devnet sender
           recipient 100000%float accept_all false 2
           (initial (ledger [Throw NetworkUnavailable; Throw NetworkUnavailable]
                       [Ok "broadcast-1"%string])) Hnone).
Defined.

End ConcreteExtras.
